(** * chaosread: device session and capture loop

    A shallow embedding of [chaoskey_utils.py] (class [ChaosKeyDevice]) and of
    [chaoskey_fulltest.py] ([capture_data] and the [with] block of [main]),
    together with the properties of the session and of the chunked read that
    the specification states.

    Python integers are [Z], byte strings are [list byte], exceptions are the
    values of [exn], and a Python statement that may touch the USB library is
    a state transformer returning either a value or a raised exception. *)

From Stdlib Require Import ZArith String List QArith Lia Lqa Bool.
From Stdlib Require Import Init.Byte.
Import ListNotations.

Local Open Scope Z_scope.

(** ** Constants of [chaoskey_utils.py] and [chaoskey_fulltest.py] *)

Definition CHAOSKEY_VID : Z := 0x1D50.
Definition CHAOSKEY_PID : Z := 0x60C6.

Definition ENDPOINT_COOKED : Z := 0x85.
Definition ENDPOINT_RAW : Z := 0x86.
Definition ENDPOINT_FLASH : Z := 0x87.

Definition USB_TIMEOUT_MS : Z := 10_000.
Definition BULK_TRANSFER_SIZE : Z := 1024.

Definition DEFAULT_NUM_LOOPS : Z := 14 * 1024.
Definition DEFAULT_BLOCK_SIZE : Z := 1024 * 1024.

(** ** Python values and exceptions *)

(** [len(data)] of a byte string. *)
Definition len (data : list byte) : Z := Z.of_nat (List.length data).

(** Truth value of a byte array ([if buffer:]) and of an optional string
    ([if self._serial:]): empty and [None] are false. *)
Definition truthy_bytes (buffer : list byte) : bool :=
  match buffer with [] => false | _ :: _ => true end.

Definition truthy_str (s : option string) : bool :=
  match s with
  | Some (String _ _) => true
  | Some EmptyString | None => false
  end.

(** The exception classes the two modules raise or catch.
    [usb.core.USBTimeoutError] is a subclass of [usb.core.USBError]. *)
Inductive exn : Type :=
| USBError (errno : option Z) (msg : string)
| USBTimeoutError (msg : string)
| NotImplementedError
| ValueError
| RuntimeError (msg : string)
| ZeroDivisionError.

(** [isinstance(e, usb.core.USBError)] *)
Definition is_USBError (e : exn) : bool :=
  match e with
  | USBError _ _ | USBTimeoutError _ => true
  | _ => false
  end.

(** [isinstance(e, usb.core.USBTimeoutError)] *)
Definition is_USBTimeoutError (e : exn) : bool :=
  match e with
  | USBTimeoutError _ => true
  | _ => false
  end.

(** [isinstance(e, (usb.core.USBError, ValueError))] *)
Definition is_USBError_or_ValueError (e : exn) : bool :=
  match e with
  | ValueError => true
  | _ => is_USBError e
  end.

(** [isinstance(e, (usb.core.USBError, NotImplementedError))] *)
Definition is_USBError_or_NotImplementedError (e : exn) : bool :=
  match e with
  | NotImplementedError => true
  | _ => is_USBError e
  end.

(** Outcome of a statement: a value, or an exception in flight. *)
Inductive result (A : Type) : Type :=
| Ok (a : A)
| Raise (e : exn).
Arguments Ok {A} a.
Arguments Raise {A} e.

(** ** A state-and-exception monad for Python statements *)

Module Py.

Definition t (S A : Type) : Type := S -> result A * S.

Definition ret {S A} (a : A) : t S A := fun s => (Ok a, s).

Definition raise {S A} (e : exn) : t S A := fun s => (Raise e, s).

Definition bind {S A B} (c : t S A) (k : A -> t S B) : t S B :=
  fun s =>
    match c s with
    | (Ok a, s') => k a s'
    | (Raise e, s') => (Raise e, s')
    end.

(** [try: body  except <classes> as e: handler e].  An exception outside
    the listed classes passes through; the state changes made by the body
    before it raised are kept. *)
Definition try_except {S A} (body : t S A) (classes : exn -> bool)
    (handler : exn -> t S A) : t S A :=
  fun s =>
    match body s with
    | (Ok a, s') => (Ok a, s')
    | (Raise e, s') => if classes e then handler e s' else (Raise e, s')
    end.

Definition get {S} : t S S := fun s => (Ok s, s).
Definition modify {S} (f : S -> S) : t S unit := fun s => (Ok tt, f s).

End Py.

Declare Scope py_scope.
Delimit Scope py_scope with py.
Notation "x <- c ;; k" := (Py.bind c (fun x => k))
  (at level 100, c at next level, right associativity) : py_scope.
Notation "c ;;; k" := (Py.bind c (fun _ => k))
  (at level 100, right associativity) : py_scope.
Local Open Scope py_scope.

(** ** The USB library, as the session sees it *)

(** A [usb.core.Device] as returned by [usb.core.find]: the descriptor fields
    the modules read. *)
Record Device : Type := mkDevice {
  idVendor : Z;
  idProduct : Z;
  iSerialNumber : Z;
  bus : Z;
  address : Z
}.

(** The calls the modules make into [usb.core] and [usb.util].  Each may
    change the state [W] of the USB subsystem and may raise.  Nothing is
    assumed about them: an instance is any behaviour of the library and of
    the attached hardware. *)
Class Backend (W : Type) : Type := {
  (** devices attached to the host, in enumeration order *)
  enumerate : W -> list Device;
  (** [usb.util.get_string(dev, index)] *)
  get_string : Device -> Z -> W -> result (option string) * W;
  (** [dev.is_kernel_driver_active(interface)] *)
  is_kernel_driver_active : Device -> Z -> W -> result bool * W;
  (** [dev.detach_kernel_driver(interface)] *)
  detach_kernel_driver : Device -> Z -> W -> result unit * W;
  (** [dev.attach_kernel_driver(interface)] *)
  attach_kernel_driver : Device -> Z -> W -> result unit * W;
  (** [usb.util.claim_interface(dev, interface)] *)
  claim_interface : Device -> Z -> W -> result unit * W;
  (** [usb.util.release_interface(dev, interface)] *)
  release_interface : Device -> Z -> W -> result unit * W;
  (** [usb.util.dispose_resources(dev)] *)
  dispose_resources : Device -> W -> result unit * W;
  (** [dev.read(endpoint, size, timeout=...)] *)
  device_read : Device -> Z -> Z -> Z -> W -> result (list byte) * W
}.

(** The library calls, as observed from outside, in the order they are
    made. *)
Inductive call : Type :=
| CGetString (dev : Device) (index : Z)
| CIsKernelDriverActive (dev : Device) (interface : Z)
| CDetachKernelDriver (dev : Device) (interface : Z)
| CAttachKernelDriver (dev : Device) (interface : Z)
| CClaimInterface (dev : Device) (interface : Z)
| CReleaseInterface (dev : Device) (interface : Z)
| CDisposeResources (dev : Device)
| CRead (dev : Device) (endpoint size timeout : Z).

(** ** The session object *)

(** Instance attributes of [ChaosKeyDevice]. *)
Record ChaosKeyDevice : Type := mkChaosKeyDevice {
  _serial : option string;
  _device : option Device;
  _kernel_was_active : bool;
  _interface : Z
}.

(** [ChaosKeyDevice.__init__] *)
Definition __init__ (serial : option string) : ChaosKeyDevice :=
  {| _serial := serial;
     _device := None;
     _kernel_was_active := false;
     _interface := 0 |}.

Definition set_device (d : option Device) (self : ChaosKeyDevice) : ChaosKeyDevice :=
  {| _serial := _serial self;
     _device := d;
     _kernel_was_active := _kernel_was_active self;
     _interface := _interface self |}.

Definition set_kernel_was_active (b : bool) (self : ChaosKeyDevice) : ChaosKeyDevice :=
  {| _serial := _serial self;
     _device := _device self;
     _kernel_was_active := b;
     _interface := _interface self |}.

(** What a method runs against: the session object, the USB subsystem and
    the record of the library calls made so far. *)
Record state (W : Type) : Type := mkState {
  self : ChaosKeyDevice;
  world : W;
  trace : list call
}.
Arguments mkState {W} self world trace.
Arguments self {W} s.
Arguments world {W} s.
Arguments trace {W} s.

Section Session.

Context {W : Type} `{Backend W}.

(** A library call: run it against the world and record it. *)
Definition invoke {A} (c : call) (f : W -> result A * W) : Py.t (state W) A :=
  fun s =>
    let (r, w') := f (world s) in
    (r, {| self := self s; world := w'; trace := trace s ++ [c] |}).

Definition set_self (f : ChaosKeyDevice -> ChaosKeyDevice) : Py.t (state W) unit :=
  Py.modify (fun s => {| self := f (self s); world := world s; trace := trace s |}).

Definition get_self : Py.t (state W) ChaosKeyDevice :=
  fun s => (Ok (self s), s).

(** *** [ChaosKeyDevice.read] *)

(** How one pass through the body of [while remaining > 0] ends: with the
    updated locals, or with [break]. *)
Inductive control : Type :=
| Next (buffer : list byte) (remaining : Z)
| Break (buffer : list byte).

Definition loop_body (dev : Device) (endpoint : Z)
    (buffer : list byte) (remaining : Z) : Py.t (state W) control :=
  let chunk_size := Z.min remaining BULK_TRANSFER_SIZE in
  Py.try_except
    (data <- invoke (CRead dev endpoint chunk_size USB_TIMEOUT_MS)
               (device_read dev endpoint chunk_size USB_TIMEOUT_MS) ;;
     if len data =? 0 then Py.ret (Break buffer)
     else Py.ret (Next (buffer ++ data) (remaining - len data)))
    is_USBTimeoutError
    (fun e => if truthy_bytes buffer then Py.ret (Break buffer)
              else Py.raise e).

(** The [while] loop, cut off after [fuel] passes; [None] is the cut-off,
    which [while_loop_total] below rules out for the fuel [read] gives. *)
Fixpoint while_loop (fuel : nat) (dev : Device) (endpoint : Z)
    (buffer : list byte) (remaining : Z) : Py.t (state W) (option (list byte)) :=
  if remaining >? 0 then
    match fuel with
    | O => Py.ret None
    | S fuel' =>
        c <- loop_body dev endpoint buffer remaining ;;
        match c with
        | Next buffer' remaining' =>
            while_loop fuel' dev endpoint buffer' remaining'
        | Break buffer' => Py.ret (Some buffer')
        end
    end
  else Py.ret (Some buffer).

Definition read (endpoint size : Z) : Py.t (state W) (option (list byte)) :=
  me <- get_self ;;
  match _device me with
  | None => Py.raise (RuntimeError "Device not open")
  | Some dev => while_loop (Z.to_nat size) dev endpoint [] size
  end.

(** *** [ChaosKeyDevice.__enter__] *)

Definition matches_ids (vid pid : Z) (dev : Device) : bool :=
  (idVendor dev =? vid) && (idProduct dev =? pid).

(** [list(usb.core.find(find_all=True, idVendor=vid, idProduct=pid))]:
    the attached devices with these identifiers, in enumeration order.
    Enumeration is a query; it does not appear in the trace. *)
Definition usb_core_find_all (vid pid : Z) : Py.t (state W) (list Device) :=
  fun s => (Ok (filter (matches_ids vid pid) (enumerate (world s))), s).

(** [usb.core.find(idVendor=vid, idProduct=pid)]: the first such device,
    or [None]. *)
Definition usb_core_find (vid pid : Z) : Py.t (state W) (option Device) :=
  fun s => (Ok (head (filter (matches_ids vid pid) (enumerate (world s)))), s).

(** [dev_serial == self._serial], where [dev_serial] may be [None]. *)
Definition serial_eqb (dev_serial wanted : option string) : bool :=
  match dev_serial, wanted with
  | Some a, Some b => String.eqb a b
  | None, None => true
  | _, _ => false
  end.

(** [for dev in devices: try: ... break  except (USBError, ValueError):
    continue] of [__enter__]. *)
Fixpoint scan_devices (devices : list Device) : Py.t (state W) unit :=
  match devices with
  | [] => Py.ret tt
  | dev :: rest =>
      found <- Py.try_except
                 (dev_serial <- invoke (CGetString dev (iSerialNumber dev))
                                  (get_string dev (iSerialNumber dev)) ;;
                  me <- get_self ;;
                  if serial_eqb dev_serial (_serial me)
                  then (set_self (set_device (Some dev)) ;;; Py.ret true)
                  else Py.ret false)
                 is_USBError_or_ValueError
                 (fun _ => Py.ret false) ;;
      if (found : bool) then Py.ret tt else scan_devices rest
  end.

(** Lines 48-64: choose [self._device]. *)
Definition find_device : Py.t (state W) unit :=
  me <- get_self ;;
  if truthy_str (_serial me) then
    devices <- usb_core_find_all CHAOSKEY_VID CHAOSKEY_PID ;;
    scan_devices devices
  else
    d <- usb_core_find CHAOSKEY_VID CHAOSKEY_PID ;;
    set_self (set_device d).

(** Lines 70-75: detach the kernel driver when it is active. *)
Definition detach_if_active (dev : Device) : Py.t (state W) unit :=
  me <- get_self ;;
  Py.try_except
    (active <- invoke (CIsKernelDriverActive dev (_interface me))
                 (is_kernel_driver_active dev (_interface me)) ;;
     if (active : bool) then
       (invoke (CDetachKernelDriver dev (_interface me))
          (detach_kernel_driver dev (_interface me)) ;;;
        set_self (set_kernel_was_active true))
     else Py.ret tt)
    is_USBError_or_NotImplementedError
    (fun _ => Py.ret tt).

(** Lines 69-78: what [__enter__] does with the device it has selected. *)
Definition detach_and_claim (dev : Device) : Py.t (state W) unit :=
  me <- get_self ;;
  detach_if_active dev ;;;
  invoke (CClaimInterface dev (_interface me))
    (claim_interface dev (_interface me)).

Definition __enter__ : Py.t (state W) unit :=
  find_device ;;;
  me <- get_self ;;
  match _device me with
  | None => Py.raise (RuntimeError "No ChaosKey device found")
  | Some dev => detach_and_claim dev
  end.

(** *** [ChaosKeyDevice.__exit__] *)

Definition __exit__ : Py.t (state W) bool :=
  me <- get_self ;;
  match _device me with
  | Some dev =>
      Py.try_except
        (invoke (CReleaseInterface dev (_interface me))
           (release_interface dev (_interface me)))
        is_USBError (fun _ => Py.ret tt) ;;;
      (if _kernel_was_active me then
         Py.try_except
           (invoke (CAttachKernelDriver dev (_interface me))
              (attach_kernel_driver dev (_interface me)))
           is_USBError (fun _ => Py.ret tt)
       else Py.ret tt) ;;;
      Py.try_except
        (invoke (CDisposeResources dev) (dispose_resources dev))
        is_USBError (fun _ => Py.ret tt) ;;;
      Py.ret false
  | None => Py.ret false
  end.

(** *** [with ChaosKeyDevice(...) as device: body]

    The statement of [main] that opens the session.  Python calls
    [__exit__] only once [__enter__] has returned: an exception raised by
    [__enter__] leaves the statement at once.  [None] is a body whose
    exception [__exit__] suppressed. *)
Definition with_session {A} (body : Py.t (state W) A) : Py.t (state W) (option A) :=
  fun s =>
    match __enter__ s with
    | (Raise e, s1) => (Raise e, s1)
    | (Ok _, s1) =>
        match body s1 with
        | (Ok a, s2) =>
            match __exit__ s2 with
            | (Ok _, s3) => (Ok (Some a), s3)
            | (Raise e', s3) => (Raise e', s3)
            end
        | (Raise e, s2) =>
            match __exit__ s2 with
            | (Ok true, s3) => (Ok None, s3)
            | (Ok false, s3) => (Raise e, s3)
            | (Raise e', s3) => (Raise e', s3)
            end
        end
    end.

(** The state in which [main] enters the [with] statement: a session
    object fresh from [__init__]. *)
Definition fresh (serial : option string) (w : W) : state W :=
  {| self := __init__ serial; world := w; trace := [] |}.

(** *** States of the read loop *)

(** The locals of [read] at the head of the [while] loop, with the state
    they are reached in. *)
Definition loop_state : Type := list byte * Z * state W.

(** [loop_reaches dev ep x y]: from [x], zero or more complete passes
    through the loop body lead to [y]. *)
Inductive loop_reaches (dev : Device) (endpoint : Z) : loop_state -> loop_state -> Prop :=
| reaches_here x : loop_reaches dev endpoint x x
| reaches_next buffer remaining s buffer' remaining' s' y :
    remaining > 0 ->
    loop_body dev endpoint buffer remaining s = (Ok (Next buffer' remaining'), s') ->
    loop_reaches dev endpoint (buffer', remaining', s') y ->
    loop_reaches dev endpoint (buffer, remaining, s) y.

(** The request the loop makes when [remaining] bytes are still wanted. *)
Definition chunk_request (dev : Device) (endpoint remaining : Z) : call :=
  CRead dev endpoint (Z.min remaining BULK_TRANSFER_SIZE) USB_TIMEOUT_MS.

(** The state after the request has been answered with world [w']. *)
Definition after_request (dev : Device) (endpoint remaining : Z)
    (s : state W) (w' : W) : state W :=
  {| self := self s; world := w';
     trace := trace s ++ [chunk_request dev endpoint remaining] |}.

(** A transport that honours the size it is asked for:
    [dev.read(endpoint, size)] reads into a buffer of [size] bytes, so what
    it returns is never longer.  Only positive sizes are ever asked for. *)
Definition honours_size : Prop :=
  forall dev endpoint size timeout w data w',
    0 < size ->
    device_read dev endpoint size timeout w = (Ok data, w') -> len data <= size.

(** *** Vocabulary of the session properties *)

(** The library calls [__exit__] makes for a session object, in order. *)
Definition cleanup_calls (me : ChaosKeyDevice) : list call :=
  match _device me with
  | None => []
  | Some dev =>
      [CReleaseInterface dev (_interface me)]
      ++ (if _kernel_was_active me
          then [CAttachKernelDriver dev (_interface me)] else [])
      ++ [CDisposeResources dev]
  end.

(** The cleanup calls report a failure the way the USB library does, by
    raising [usb.core.USBError] (or its subclass). *)
Definition cleanup_fails_with_USBError : Prop :=
  (forall dev i w e w',
      release_interface dev i w = (Raise e, w') -> is_USBError e = true)
  /\ (forall dev i w e w',
      attach_kernel_driver dev i w = (Raise e, w') -> is_USBError e = true)
  /\ (forall dev w e w',
      dispose_resources dev w = (Raise e, w') -> is_USBError e = true).

(** The devices [usb.core.find] offers [__enter__]. *)
Definition candidates (w : W) : list Device :=
  filter (matches_ids CHAOSKEY_VID CHAOSKEY_PID) (enumerate w).

(** The descriptor read [__enter__] makes for a candidate. *)
Definition get_string_call (dev : Device) : call :=
  CGetString dev (iSerialNumber dev).

(** A descriptor read answered with [r] does not select the candidate: it
    returned something other than the wanted serial, or it failed with
    [usb.core.USBError] or [ValueError]. *)
Definition no_match (wanted : string) (r : result (option string)) : Prop :=
  match r with
  | Ok dev_serial => dev_serial <> Some wanted
  | Raise e => is_USBError_or_ValueError e = true
  end.

(** [scan_misses wanted devs w w']: reading the serial descriptors of [devs]
    one after the other, from world [w], selects none of them and ends in
    world [w']. *)
Inductive scan_misses (wanted : string) : list Device -> W -> W -> Prop :=
| misses_nil w : scan_misses wanted [] w w
| misses_cons dev rest w r w1 w2 :
    get_string dev (iSerialNumber dev) w = (r, w1) ->
    no_match wanted r ->
    scan_misses wanted rest w1 w2 ->
    scan_misses wanted (dev :: rest) w w2.

Definition is_claim (c : call) : bool :=
  match c with CClaimInterface _ _ => true | _ => false end.

Definition is_attach (c : call) : bool :=
  match c with CAttachKernelDriver _ _ => true | _ => false end.

End Session.

(** ** The rest of [chaoskey_utils.py]: device discovery *)

(** An entry of the list [find_chaoskey_devices] returns: the dictionary
    with the keys ['bus'], ['address'] and ['serial']. *)
Record device_info : Type := mkInfo {
  info_bus : Z;
  info_address : Z;
  info_serial : option string
}.

(** What the generator [usb.core.find(find_all=True, ...)] of line 158 does
    while the [for] loop draws from it: it yields devices, and then it is
    exhausted or it raises.  The call is outside any [try]: when the
    library finds no backend it raises [usb.core.NoBackendError] (a
    [ValueError]) before any device is yielded, and an enumeration that
    fails raises the error of the backend. *)
Record enumeration : Type := mkEnumeration {
  yielded : list Device;
  failure : option exn
}.

(** An enumeration that yields [devs] and is exhausted. *)
Definition complete (devs : list Device) : enumeration :=
  {| yielded := devs; failure := None |}.

Section Discovery.

Context {W : Type} `{Backend W}.

(** [ChaosKeyDevice.serial], the property (lines 139-147). *)
Definition serial : Py.t (state W) (option string) :=
  me <- get_self ;;
  match _device me with
  | None => Py.ret None
  | Some dev =>
      Py.try_except
        (invoke (CGetString dev (iSerialNumber dev))
           (get_string dev (iSerialNumber dev)))
        is_USBError_or_ValueError
        (fun _ => Py.ret None)
  end.

(** The [for] loop of [find_chaoskey_devices] over the devices still to
    come, with the list built so far. *)
Fixpoint describe_devices (devs : list Device) (devices : list device_info)
    : Py.t (state W) (list device_info) :=
  match devs with
  | [] => Py.ret devices
  | dev :: rest =>
      dev_serial <- Py.try_except
                      (invoke (CGetString dev (iSerialNumber dev))
                         (get_string dev (iSerialNumber dev)))
                      is_USBError_or_ValueError
                      (fun _ => Py.ret None) ;;
      describe_devices rest
        (devices ++ [{| info_bus := bus dev;
                        info_address := address dev;
                        info_serial := dev_serial |}])
  end.

(** [find_chaoskey_devices] (lines 150-174), for what the generator of
    line 158 does: the loop runs for the devices yielded; an exception of
    the generator leaves the function, the list built so far with it. *)
Definition find_chaoskey_devices_over (found : enumeration)
    : Py.t (state W) (list device_info) :=
  devices <- describe_devices (yielded found) [] ;;
  match failure found with
  | Some e => Py.raise e
  | None => Py.ret devices
  end.

(** [find_chaoskey_devices] where the enumeration completes with the
    attached devices. *)
Definition find_chaoskey_devices : Py.t (state W) (list device_info) :=
  devs <- usb_core_find_all CHAOSKEY_VID CHAOSKEY_PID ;;
  describe_devices devs [].

(** [get_first_chaoskey] (lines 177-183). *)
Definition get_first_chaoskey : Py.t (state W) (option Device) :=
  usb_core_find CHAOSKEY_VID CHAOSKEY_PID.

(** *** Vocabulary of the discovery properties *)

(** Reading a string descriptor fails the way the USB library documents:
    with [usb.core.USBError] or with [ValueError]. *)
Definition descriptor_fails_with_USBError_or_ValueError : Prop :=
  forall dev index w e w',
    get_string dev index w = (Raise e, w') ->
    is_USBError_or_ValueError e = true.

(** Reading a string descriptor is a query: it leaves the USB subsystem as
    it was. *)
Definition descriptor_read_is_a_query : Prop :=
  forall dev index w, snd (get_string dev index w) = w.

(** Where a device is plugged: what the listing shows of it. *)
Definition location (dev : Device) : Z * Z := (bus dev, address dev).
Definition info_location (info : device_info) : Z * Z :=
  (info_bus info, info_address info).

(** The session object [main] builds after the listing, in the state the
    listing has left. *)
Definition session_after (serial : option string) (s : state W) : state W :=
  {| self := __init__ serial; world := world s; trace := trace s |}.

(** What the descriptor read of [dev] answers in world [w], and the serial
    the listing shows for such an answer. *)
Definition answer_at (w : W) (dev : Device) : result (option string) :=
  fst (get_string dev (iSerialNumber dev) w).

Definition shown_serial (r : result (option string)) : option string :=
  match r with Ok dev_serial => dev_serial | Raise _ => None end.

Definition info_at (w : W) (dev : Device) : device_info :=
  {| info_bus := bus dev; info_address := address dev;
     info_serial := shown_serial (answer_at w dev) |}.

Definition is_detach (c : call) : bool :=
  match c with CDetachKernelDriver _ _ => true | _ => false end.

(** A request [read] may make: for the device and the endpoint of the call,
    with the timeout of the module, for at least one byte and at most
    [BULK_TRANSFER_SIZE] bytes, and for no more than [size] bytes. *)
Definition chunk_request_of (dev : Device) (endpoint size : Z) (c : call) : Prop :=
  exists n, c = CRead dev endpoint n USB_TIMEOUT_MS
            /\ 1 <= n <= BULK_TRANSFER_SIZE /\ n <= size.

(** A transport with data always ready: asked for [n] bytes, it delivers
    [n] bytes. *)
Definition always_delivers : Prop :=
  forall dev endpoint n timeout w,
    0 < n ->
    exists data w',
      device_read dev endpoint n timeout w = (Ok data, w') /\ len data = n.

(** The requests of a read of [size] bytes that is never cut short: one
    per chunk of [BULK_TRANSFER_SIZE] bytes, the last for what is left. *)
Definition full_read_requests (dev : Device) (endpoint size : Z) : list call :=
  map (fun k => chunk_request dev endpoint
                  (size - BULK_TRANSFER_SIZE * Z.of_nat k))
      (seq 0 (Z.to_nat ((size + BULK_TRANSFER_SIZE - 1) / BULK_TRANSFER_SIZE))).

(** [ChaosKeyDevice.read] as [capture_data] calls it, returning bytes.  The
    cut-off of the loop is turned into an exception that no handler names;
    [read] never produces it. *)
Definition device_dot_read (endpoint size : Z) : Py.t (state W) (list byte) :=
  fun s =>
    match read endpoint size s with
    | (Ok (Some data), s') => (Ok data, s')
    | (Ok None, s') => (Raise (RuntimeError "unreachable"), s')
    | (Raise e, s') => (Raise e, s')
    end.

End Discovery.

(** ** [capture_data] *)

(** What [capture_data] prints, one value per [print] or [sys.stdout.write];
    the block number shown is [i + 1]. *)
Inductive output : Type :=
| ReadFailed (block : Z) (e : exn)
| NoDataReceived (block : Z)
| Progress (block num_loops : Z) (progress rate : Q)
| Newline.

(** Timestamps, elapsed times and rates are modelled as exact rationals:
    the branch on [elapsed > 0] and the division are those of the source,
    rounding is not represented. *)

(** [a / b] on Python floats: a zero divisor raises. *)
Definition py_truediv (a b : Q) : result Q :=
  if Qeq_bool b 0 then Raise ZeroDivisionError else Ok (a / b)%Q.

(** Lines 138-142: the rate shown for a block of [data_len] bytes read in
    [elapsed] seconds. *)
Definition transfer_rate (data_len : Z) (elapsed : Q) : result Q :=
  if Qlt_le_dec 0 elapsed then
    match py_truediv (inject_Z data_len) (elapsed * 1000000)%Q with
    | Ok q => Ok (q * 8)%Q
    | Raise e => Raise e
    end
  else Ok 0%Q.

(** [range(n)] *)
Definition range (n : Z) : list Z := map Z.of_nat (seq 0 (Z.to_nat n)).

(** What [capture_data] runs against: the device it reads, the sink it
    writes (an in-memory binary file: a write appends and cannot fail) and
    the standard output. *)
Record capture_env (S : Type) : Type := mkEnv {
  device : S;
  output_file : list byte;
  stdout : list output
}.
Arguments mkEnv {S} device output_file stdout.
Arguments device {S} c.
Arguments output_file {S} c.
Arguments stdout {S} c.

Section Capture.

Context {S : Type}.

(** [device.read(endpoint, size)] of the object passed as [device]. *)
Variable read_of_device : Z -> Z -> Py.t S (list byte).
(** [time.time()] *)
Variable time_time : S -> Q * S.

Definition on_device {A} (c : Py.t S A) : Py.t (capture_env S) A :=
  fun env =>
    let (r, d') := c (device env) in
    (r, {| device := d'; output_file := output_file env; stdout := stdout env |}).

Definition now : Py.t (capture_env S) Q :=
  on_device (fun d => let (t, d') := time_time d in (Ok t, d')).

Definition print (o : output) : Py.t (capture_env S) unit :=
  Py.modify (fun env => {| device := device env;
                           output_file := output_file env;
                           stdout := stdout env ++ [o] |}).

Definition write (data : list byte) : Py.t (capture_env S) unit :=
  Py.modify (fun env => {| device := device env;
                           output_file := output_file env ++ data;
                           stdout := stdout env |}).

Definition lift_result {A} (r : result A) : Py.t (capture_env S) A :=
  fun env => (r, env).

(** [for i in range(num_loops): ...], over the indices still to come, with
    the running [total_bytes]; the value is [total_bytes] when the loop is
    left, by exhaustion or by [break]. *)
Fixpoint for_blocks (endpoint num_loops block_size : Z) (indices : list Z)
    (total_bytes : Z) : Py.t (capture_env S) Z :=
  match indices with
  | [] => Py.ret total_bytes
  | i :: rest =>
      got <- Py.try_except
               (before <- now ;;
                data <- on_device (read_of_device endpoint block_size) ;;
                after <- now ;;
                Py.ret (Some (before, data, after)))
               is_USBError
               (fun e => print (ReadFailed (i + 1) e) ;;; Py.ret None) ;;
      match got with
      | None => Py.ret total_bytes
      | Some (before, data, after) =>
          if len data =? 0 then
            print (NoDataReceived (i + 1)) ;;; Py.ret total_bytes
          else
            let total_bytes := total_bytes + len data in
            write data ;;;
            let elapsed := (after - before)%Q in
            rate <- lift_result (transfer_rate (len data) elapsed) ;;
            progress <- lift_result (py_truediv (inject_Z ((i + 1) * 100))
                                       (inject_Z num_loops)) ;;
            print (Progress (i + 1) num_loops progress rate) ;;;
            for_blocks endpoint num_loops block_size rest total_bytes
      end
  end.

Definition capture_data (endpoint num_loops block_size : Z) : Py.t (capture_env S) Z :=
  total_bytes <- for_blocks endpoint num_loops block_size (range num_loops) 0 ;;
  print Newline ;;;
  Py.ret total_bytes.

End Capture.

(** ** Test doubles *)

(** A device whose [read] answers from a script, one entry per call
    whatever the size asked, and a clock whose successive readings are
    [clock 0], [clock 1], ...  Once the script is exhausted [read] returns
    no data. *)
Record script : Type := mkScript {
  responses : list (result (list byte));
  clock : nat -> Q;
  ticks : nat;
  asked : list (Z * Z)
}.

Definition script_read (endpoint size : Z) : Py.t script (list byte) :=
  fun m =>
    let m' rest := {| responses := rest; clock := clock m; ticks := ticks m;
                      asked := asked m ++ [(endpoint, size)] |} in
    match responses m with
    | [] => (Ok [], m' [])
    | r :: rest => (r, m' rest)
    end.

Definition script_time (m : script) : Q * script :=
  (clock m (ticks m),
   {| responses := responses m; clock := clock m; ticks := S (ticks m);
      asked := asked m |}).

(** [capture_data] run on a scripted device, with an empty sink and nothing
    printed yet. *)
Definition script_capture (endpoint num_loops block_size : Z)
    : Py.t (capture_env script) Z :=
  capture_data script_read script_time endpoint num_loops block_size.

Definition script_env (m : script) : capture_env script :=
  {| device := m; output_file := []; stdout := [] |}.

(** The scripted device after [n] more reads of [size] bytes from
    [endpoint], each between two readings of the clock, with [rest] left of
    the script. *)
Definition after_reads (n : nat) (endpoint size : Z)
    (rest : list (result (list byte))) (m : script) : script :=
  {| responses := rest; clock := clock m; ticks := (2 * n + ticks m)%nat;
     asked := asked m ++ repeat (endpoint, size) n |}.

(** Sum of the lengths of the blocks. *)
Definition total_len (blocks : list (list byte)) : Z :=
  fold_right (fun d acc => len d + acc) 0 blocks.

(** [o] is the progress line of block number [block] out of [num_loops]. *)
Definition progress_of (num_loops : Z) (o : output) (block : Z) : Prop :=
  exists progress rate, o = Progress block num_loops progress rate.

(** The block numbers [first + 1, ..., first + n], as printed. *)
Definition block_numbers (first n : nat) : list Z :=
  map (fun k => Z.of_nat k + 1) (seq first n).

(** One mebibyte of zero bytes. *)
Definition mebibyte : list byte := repeat x00 (Z.to_nat 1048576).

(** A simulated host with the devices attached to it.  Reading a serial
    descriptor answers as listed for the device; the interface has a kernel
    driver bound or not, and is held by another process or not; the bulk
    endpoint delivers the queued packets, at most [size] bytes of each, and
    times out when the queue is empty.  Once the device is unplugged every
    call on it fails. *)
Record sim : Type := mkSim {
  sim_devices : list (Device * result (option string));
  sim_kernel_driver : bool;
  sim_held_elsewhere : bool;
  sim_claimed : bool;
  sim_unplugged : bool;
  sim_packets : list (result (list byte))
}.

Definition Device_eqb (a b : Device) : bool :=
  (idVendor a =? idVendor b) && (idProduct a =? idProduct b)
  && (iSerialNumber a =? iSerialNumber b)
  && (bus a =? bus b) && (address a =? address b).

Definition sim_set_kernel_driver (b : bool) (w : sim) : sim :=
  {| sim_devices := sim_devices w; sim_kernel_driver := b;
     sim_held_elsewhere := sim_held_elsewhere w; sim_claimed := sim_claimed w;
     sim_unplugged := sim_unplugged w; sim_packets := sim_packets w |}.

Definition sim_set_claimed (b : bool) (w : sim) : sim :=
  {| sim_devices := sim_devices w; sim_kernel_driver := sim_kernel_driver w;
     sim_held_elsewhere := sim_held_elsewhere w; sim_claimed := b;
     sim_unplugged := sim_unplugged w; sim_packets := sim_packets w |}.

Definition sim_set_packets (p : list (result (list byte))) (w : sim) : sim :=
  {| sim_devices := sim_devices w; sim_kernel_driver := sim_kernel_driver w;
     sim_held_elsewhere := sim_held_elsewhere w; sim_claimed := sim_claimed w;
     sim_unplugged := sim_unplugged w; sim_packets := p |}.

Definition ENODEV : exn := USBError (Some 19) "No such device".
Definition EBUSY : exn := USBError (Some 16) "Resource busy".

(** A call that needs the device: it fails once the device is gone. *)
Definition sim_plugged {A} (f : sim -> result A * sim) (w : sim) : result A * sim :=
  if sim_unplugged w then (Raise ENODEV, w) else f w.

Definition sim_get_string (dev : Device) (index : Z) (w : sim)
    : result (option string) * sim :=
  match find (fun entry => Device_eqb (fst entry) dev) (sim_devices w) with
  | Some (_, r) => (r, w)
  | None => (Raise ENODEV, w)
  end.

Definition sim_detach (dev : Device) (interface : Z) : sim -> result unit * sim :=
  sim_plugged (fun w =>
    if sim_kernel_driver w then (Ok tt, sim_set_kernel_driver false w)
    else (Raise (USBError (Some 61) "No data available"), w)).

Definition sim_attach (dev : Device) (interface : Z) : sim -> result unit * sim :=
  sim_plugged (fun w =>
    if sim_kernel_driver w then (Raise EBUSY, w)
    else (Ok tt, sim_set_kernel_driver true w)).

Definition sim_claim (dev : Device) (interface : Z) : sim -> result unit * sim :=
  sim_plugged (fun w =>
    if sim_held_elsewhere w then (Raise EBUSY, w)
    else (Ok tt, sim_set_claimed true w)).

Definition sim_release (dev : Device) (interface : Z) : sim -> result unit * sim :=
  sim_plugged (fun w => (Ok tt, sim_set_claimed false w)).

Definition sim_dispose (dev : Device) : sim -> result unit * sim :=
  sim_plugged (fun w => (Ok tt, w)).

Definition sim_read (dev : Device) (endpoint size timeout : Z)
    : sim -> result (list byte) * sim :=
  sim_plugged (fun w =>
    match sim_packets w with
    | [] => (Raise (USBTimeoutError "Operation timed out"), w)
    | Ok data :: rest => (Ok (firstn (Z.to_nat size) data), sim_set_packets rest w)
    | Raise e :: rest => (Raise e, sim_set_packets rest w)
    end).

#[export] Instance sim_backend : Backend sim := {
  enumerate w := map fst (sim_devices w);
  get_string := sim_get_string;
  is_kernel_driver_active _ _ := sim_plugged (fun w => (Ok (sim_kernel_driver w), w));
  detach_kernel_driver := sim_detach;
  attach_kernel_driver := sim_attach;
  claim_interface := sim_claim;
  release_interface := sim_release;
  dispose_resources := sim_dispose;
  device_read := sim_read
}.

(** Two ChaosKeys on one bus. *)
Definition key_a : Device :=
  {| idVendor := CHAOSKEY_VID; idProduct := CHAOSKEY_PID; iSerialNumber := 3;
     bus := 1; address := 4 |}.
Definition key_b : Device :=
  {| idVendor := CHAOSKEY_VID; idProduct := CHAOSKEY_PID; iSerialNumber := 3;
     bus := 1; address := 5 |}.

(** Some other device on the same bus. *)
Definition keyboard : Device :=
  {| idVendor := 0x046D; idProduct := 0xC31C; iSerialNumber := 0;
     bus := 1; address := 2 |}.

(** A host with both keys and the keyboard: the serial descriptor of the
    first key cannot be read, the second key has serial [B2]. *)
Definition two_keys : sim :=
  {| sim_devices := [(keyboard, Ok None);
                     (key_a, Raise (USBError (Some 32) "Pipe error"));
                     (key_b, Ok (Some "B2"%string))];
     sim_kernel_driver := false;
     sim_held_elsewhere := false;
     sim_claimed := false;
     sim_unplugged := false;
     sim_packets := [] |}.

(** A host with one key, bound to its kernel driver, whose interface another
    process holds. *)
Definition busy_host : sim :=
  {| sim_devices := [(key_a, Ok (Some "A1"%string))];
     sim_kernel_driver := true;
     sim_held_elsewhere := true;
     sim_claimed := false;
     sim_unplugged := false;
     sim_packets := [] |}.

(** A host whose key was pulled out during the session. *)
Definition unplugged_host : sim :=
  {| sim_devices := [(key_a, Ok (Some "A1"%string))];
     sim_kernel_driver := false;
     sim_held_elsewhere := false;
     sim_claimed := true;
     sim_unplugged := true;
     sim_packets := [] |}.

(** The session object of a session opened on [key_a] after detaching the
    kernel driver. *)
Definition open_on_key_a : ChaosKeyDevice :=
  {| _serial := None; _device := Some key_a;
     _kernel_was_active := true; _interface := 0 |}.

(** A session opened on [key_a], about to run against host [w]. *)
Definition opened (w : sim) : state sim :=
  {| self := open_on_key_a; world := w; trace := [] |}.

Definition host_with_packets (packets : list (result (list byte))) : sim :=
  {| sim_devices := [(key_a, Ok (Some "A1"%string))];
     sim_kernel_driver := false;
     sim_held_elsewhere := false;
     sim_claimed := true;
     sim_unplugged := false;
     sim_packets := packets |}.

(** The key has a packet of three bytes and one of four bytes ready. *)
Definition streaming_host : sim :=
  host_with_packets [Ok [x01; x02; x03]; Ok [x04; x05; x06; x07]].

(** The key delivers three bytes, then a zero-length packet; a further
    packet would follow. *)
Definition drained_host : sim :=
  host_with_packets [Ok [x01; x02; x03]; Ok []; Ok [x09]].

(** The key delivers three bytes and then stays silent. *)
Definition stalling_host : sim := host_with_packets [Ok [x01; x02; x03]].

(** The key stays silent from the start. *)
Definition silent_host : sim := host_with_packets [].

(** The key delivers three bytes and the next transfer fails on the bus. *)
Definition failing_host : sim :=
  host_with_packets [Ok [x01; x02; x03]; Raise (USBError (Some 32) "Pipe error")].

(** A clock that advances by one second per reading. *)
Definition seconds (n : nat) : Q := inject_Z (Z.of_nat n).

(** A host whose USB backend can detach a kernel driver but has no call to
    reattach one: [attach_kernel_driver] raises [NotImplementedError].  One
    key is attached; every other call succeeds and the endpoint is silent. *)
Record legacy_host : Type := mkLegacy {
  legacy_driver_bound : bool
}.

#[export] Instance legacy_backend : Backend legacy_host := {
  enumerate _ := [key_a];
  get_string _ _ w := (Ok (Some "A1"%string), w);
  is_kernel_driver_active _ _ w := (Ok (legacy_driver_bound w), w);
  detach_kernel_driver _ _ _ := (Ok tt, {| legacy_driver_bound := false |});
  attach_kernel_driver _ _ w := (Raise NotImplementedError, w);
  claim_interface _ _ w := (Ok tt, w);
  release_interface _ _ w := (Ok tt, w);
  dispose_resources _ w := (Ok tt, w);
  device_read _ _ _ _ w := (Raise (USBTimeoutError "Operation timed out"), w)
}.

(** A transport that ignores the size it is asked for: every transfer
    delivers the same two bytes.  [babbled] counts the transfers. *)
Record babbler : Type := mkBabbler {
  babbled : nat
}.

#[export] Instance babbling_backend : Backend babbler := {
  enumerate _ := [key_a];
  get_string _ _ w := (Ok (Some "A1"%string), w);
  is_kernel_driver_active _ _ w := (Ok false, w);
  detach_kernel_driver _ _ w := (Ok tt, w);
  attach_kernel_driver _ _ w := (Ok tt, w);
  claim_interface _ _ w := (Ok tt, w);
  release_interface _ _ w := (Ok tt, w);
  dispose_resources _ w := (Ok tt, w);
  device_read _ _ _ _ w := (Ok [x01; x02], {| babbled := S (babbled w) |})
}.

(** A hub with ChaosKeys whose endpoints always have data ready.  The
    serial descriptor of a key reads as its serial, or the key has no string
    table (the library raises [ValueError]), or the request stalls
    ([usb.core.USBError]); reading it changes nothing.  The interface has a
    kernel driver bound or not.  Every call on the interface succeeds; a
    transfer delivers as many zero bytes as it is asked for, and is
    counted. *)
Inductive descriptor : Type :=
| Serial (s : string)
| NoStringTable
| Stalled.

Record hub : Type := mkHub {
  hub_keys : list (Device * descriptor);
  hub_driver_bound : bool;
  hub_transfers : nat
}.

Definition hub_set_driver_bound (b : bool) (w : hub) : hub :=
  {| hub_keys := hub_keys w; hub_driver_bound := b;
     hub_transfers := hub_transfers w |}.

Definition hub_get_string (dev : Device) (index : Z) (w : hub)
    : result (option string) * hub :=
  match find (fun entry => Device_eqb (fst entry) dev) (hub_keys w) with
  | Some (_, Serial s) => (Ok (Some s), w)
  | Some (_, NoStringTable) => (Raise ValueError, w)
  | Some (_, Stalled) => (Raise (USBError (Some 32) "Pipe error"), w)
  | None => (Raise ENODEV, w)
  end.

Definition hub_read (dev : Device) (endpoint size timeout : Z) (w : hub)
    : result (list byte) * hub :=
  (Ok (repeat x00 (Z.to_nat size)),
   {| hub_keys := hub_keys w; hub_driver_bound := hub_driver_bound w;
      hub_transfers := S (hub_transfers w) |}).

#[export] Instance hub_backend : Backend hub := {
  enumerate w := map fst (hub_keys w);
  get_string := hub_get_string;
  is_kernel_driver_active _ _ w := (Ok (hub_driver_bound w), w);
  detach_kernel_driver _ _ w := (Ok tt, hub_set_driver_bound false w);
  attach_kernel_driver _ _ w := (Ok tt, hub_set_driver_bound true w);
  claim_interface _ _ w := (Ok tt, w);
  release_interface _ _ w := (Ok tt, w);
  dispose_resources _ w := (Ok tt, w);
  device_read := hub_read
}.

(** A third key, with the serial of the second. *)
Definition key_c : Device :=
  {| idVendor := CHAOSKEY_VID; idProduct := CHAOSKEY_PID; iSerialNumber := 3;
     bus := 2; address := 7 |}.

(** A hub with the keyboard and three keys, bound to the kernel driver: the
    first key stalls on its serial descriptor, the other two both answer
    [B2]. *)
Definition bench : hub :=
  {| hub_keys := [(keyboard, NoStringTable); (key_a, Stalled);
                  (key_b, Serial "B2"); (key_c, Serial "B2")];
     hub_driver_bound := true;
     hub_transfers := 0 |}.

(** A hub with nothing but the keyboard. *)
Definition bare_bench : hub :=
  {| hub_keys := [(keyboard, NoStringTable)];
     hub_driver_bound := false;
     hub_transfers := 0 |}.

(** The listing of the hub: the stalled key is shown without a serial, and
    two entries show [B2]. *)
Definition bench_listing : list device_info :=
  [ {| info_bus := 1; info_address := 4; info_serial := None |};
    {| info_bus := 1; info_address := 5; info_serial := Some "B2"%string |};
    {| info_bus := 2; info_address := 7; info_serial := Some "B2"%string |} ].

(** The state the listing leaves. *)
Definition bench_listed : state hub :=
  {| self := __init__ None; world := bench;
     trace := [get_string_call key_a; get_string_call key_b;
               get_string_call key_c] |}.

(** The session opened on the hub with the serial filter [B2]: it holds the
    second key, after detaching the kernel driver. *)
Definition opened_on_bench : state hub :=
  {| self := set_kernel_was_active true
               (set_device (Some key_b) (__init__ (Some "B2"%string)));
     world := hub_set_driver_bound false bench;
     trace := [get_string_call key_a; get_string_call key_b;
               CIsKernelDriverActive key_b 0; CDetachKernelDriver key_b 0;
               CClaimInterface key_b 0] |}.

(** A host whose USB backend knows no kernel drivers, as on platforms other
    than Linux: the query, the detachment and the reattachment raise
    [NotImplementedError].  One key is attached; the interface can be
    claimed and the endpoint is silent. *)
Record driverless_host : Type := mkDriverless {
  driverless_claimed : bool
}.

#[export] Instance driverless_backend : Backend driverless_host := {
  enumerate _ := [key_a];
  get_string _ _ w := (Ok (Some "A1"%string), w);
  is_kernel_driver_active _ _ w := (Raise NotImplementedError, w);
  detach_kernel_driver _ _ w := (Raise NotImplementedError, w);
  attach_kernel_driver _ _ w := (Raise NotImplementedError, w);
  claim_interface _ _ _ := (Ok tt, {| driverless_claimed := true |});
  release_interface _ _ _ := (Ok tt, {| driverless_claimed := false |});
  dispose_resources _ w := (Ok tt, w);
  device_read _ _ _ _ w := (Raise (USBTimeoutError "Operation timed out"), w)
}.

(** A clock for sessions on the hub: one second per transfer made so far.
    Reading it changes nothing. *)
Definition hub_time (s : state hub) : Q * state hub :=
  (seconds (hub_transfers (world s)), s).

(** * Properties *)

(** ** The chunked read *)

Section ReadFacts.

Context {W : Type} `{Backend W}.

Lemma len_app (a b : list byte) : len (a ++ b) = len a + len b.
Proof. unfold len. rewrite length_app. lia. Qed.

Lemma len_nonneg (a : list byte) : 0 <= len a.
Proof. unfold len. lia. Qed.

Lemma len_zero_nil (a : list byte) : len a = 0 -> a = [].
Proof. destruct a; [reflexivity | unfold len; simpl; lia]. Qed.

(** One pass of the loop body, by the answer of the transport. *)
Lemma loop_body_data dev endpoint buffer remaining s data w' :
  device_read dev endpoint (Z.min remaining BULK_TRANSFER_SIZE) USB_TIMEOUT_MS
    (world s) = (Ok data, w') ->
  loop_body dev endpoint buffer remaining s =
    (Ok (if len data =? 0 then Break buffer
         else Next (buffer ++ data) (remaining - len data)),
     after_request dev endpoint remaining s w').
Proof.
  intros Hread.
  unfold loop_body, Py.try_except, Py.bind, invoke. rewrite Hread.
  destruct (len data =? 0); reflexivity.
Qed.

Lemma loop_body_raise dev endpoint buffer remaining s e w' :
  device_read dev endpoint (Z.min remaining BULK_TRANSFER_SIZE) USB_TIMEOUT_MS
    (world s) = (Raise e, w') ->
  loop_body dev endpoint buffer remaining s =
    (if is_USBTimeoutError e && truthy_bytes buffer then Ok (Break buffer)
     else Raise e,
     after_request dev endpoint remaining s w').
Proof.
  intros Hread.
  unfold loop_body, Py.try_except, Py.bind, invoke. rewrite Hread.
  destruct (is_USBTimeoutError e), (truthy_bytes buffer); reflexivity.
Qed.

(** A pass that goes round again has received at least one byte. *)
Lemma loop_body_next dev endpoint buffer remaining s buffer' remaining' s' :
  loop_body dev endpoint buffer remaining s = (Ok (Next buffer' remaining'), s') ->
  exists data w',
    device_read dev endpoint (Z.min remaining BULK_TRANSFER_SIZE) USB_TIMEOUT_MS
      (world s) = (Ok data, w')
    /\ 0 < len data
    /\ buffer' = buffer ++ data
    /\ remaining' = remaining - len data
    /\ s' = after_request dev endpoint remaining s w'.
Proof.
  intros Hbody.
  destruct (device_read dev endpoint (Z.min remaining BULK_TRANSFER_SIZE)
              USB_TIMEOUT_MS (world s)) as [[data | e] w'] eqn:Hread.
  - rewrite (loop_body_data _ _ _ _ _ _ _ Hread) in Hbody.
    destruct (len data =? 0) eqn:Hz; inversion Hbody; subst.
    exists data, w'. apply Z.eqb_neq in Hz.
    pose proof (len_nonneg data). repeat split; try reflexivity. lia.
  - rewrite (loop_body_raise _ _ _ _ _ _ _ Hread) in Hbody.
    destruct (is_USBTimeoutError e && truthy_bytes buffer); inversion Hbody.
Qed.

(** Fuel beyond [remaining] changes nothing: every pass that goes round
    again lowers [remaining] by at least one. *)
Lemma while_loop_fuel dev endpoint :
  forall f1 f2 buffer remaining s,
    (Z.to_nat remaining <= f1)%nat -> (Z.to_nat remaining <= f2)%nat ->
    while_loop f1 dev endpoint buffer remaining s =
    while_loop f2 dev endpoint buffer remaining s.
Proof.
  induction f1 as [|f1 IH]; intros f2 buffer remaining s H1 H2.
  - destruct f2; simpl; destruct (remaining >? 0) eqn:Hpos; try reflexivity;
      apply Z.gtb_lt in Hpos; lia.
  - destruct f2 as [|f2]; simpl; destruct (remaining >? 0) eqn:Hpos;
      try reflexivity; apply Z.gtb_lt in Hpos; try lia.
    unfold Py.bind.
    destruct (loop_body dev endpoint buffer remaining s) as [[[b' r'|b'] | e] s']
      eqn:Hbody; try reflexivity.
    apply loop_body_next in Hbody.
    destruct Hbody as (data & w' & _ & Hlen & _ & Hr & _). subst r'.
    apply IH; lia.
Qed.

(** The loop is never cut off by the fuel [read] gives it. *)
Lemma while_loop_total dev endpoint :
  forall f buffer remaining s,
    (Z.to_nat remaining <= f)%nat ->
    fst (while_loop f dev endpoint buffer remaining s) <> Ok None.
Proof.
  induction f as [|f IH]; intros buffer remaining s Hf; simpl;
    destruct (remaining >? 0) eqn:Hpos; try discriminate;
    apply Z.gtb_lt in Hpos; try lia.
  unfold Py.bind.
  destruct (loop_body dev endpoint buffer remaining s) as [[[b' r'|b'] | e] s']
    eqn:Hbody; try discriminate.
  apply loop_body_next in Hbody.
  destruct Hbody as (data & w' & _ & Hlen & _ & Hr & _). subst r'.
  apply IH; lia.
Qed.

(** Running the loop from a state is running it from any state that state
    reaches. *)
Lemma while_loop_reaches dev endpoint :
  forall x y, loop_reaches dev endpoint x y ->
  forall f,
    (Z.to_nat (snd (fst x)) <= f)%nat ->
    while_loop f dev endpoint (fst (fst x)) (snd (fst x)) (snd x) =
    while_loop (Z.to_nat (snd (fst y))) dev endpoint
      (fst (fst y)) (snd (fst y)) (snd y).
Proof.
  induction 1 as [[[b r] s] | b r s b' r' s' y Hpos Hbody Hreach IH];
    intros f Hf; simpl in *.
  - apply while_loop_fuel; lia.
  - destruct f as [|f]; [lia|].
    simpl. apply Z.gt_lt, Z.gtb_lt in Hpos as Hpos'. rewrite Hpos'.
    unfold Py.bind. rewrite Hbody.
    apply loop_body_next in Hbody.
    destruct Hbody as (data & w' & _ & Hlen & _ & Hr & _). subst r'.
    apply IH. lia.
Qed.

(** The loop invariant: the bytes accumulated and the bytes still wanted
    add up to the bytes asked for. *)
Lemma loop_reaches_sum dev endpoint :
  honours_size ->
  forall x y, loop_reaches dev endpoint x y ->
    0 <= snd (fst x) ->
    len (fst (fst y)) + snd (fst y) = len (fst (fst x)) + snd (fst x)
    /\ 0 <= snd (fst y).
Proof.
  intros Hsize x y Hreach.
  induction Hreach as [[[b r] s] | b r s b' r' s' y Hpos Hbody Hreach IH];
    intros Hr; simpl in *.
  - split; [reflexivity | assumption].
  - apply loop_body_next in Hbody.
    destruct Hbody as (data & w' & Hread & Hlen & Hb & Hr' & _). subst b' r'.
    apply Hsize in Hread; [| unfold BULK_TRANSFER_SIZE; lia].
    destruct IH as [IH1 IH2]; [lia|].
    rewrite len_app in IH1. split; lia.
Qed.

(** What the loop returns is no longer than what was accumulated plus what
    was still wanted. *)
Lemma while_loop_bound dev endpoint :
  honours_size ->
  forall f buffer remaining s out s',
    0 <= remaining ->
    while_loop f dev endpoint buffer remaining s = (Ok (Some out), s') ->
    len out <= len buffer + remaining.
Proof.
  intros Hsize.
  induction f as [|f IH]; intros buffer remaining s out s' Hr Hrun;
    simpl in Hrun; destruct (remaining >? 0) eqn:Hpos;
    try (inversion Hrun; subst; lia).
  unfold Py.bind in Hrun.
  destruct (loop_body dev endpoint buffer remaining s) as [[[b' r'|b'] | e] s1]
    eqn:Hbody; try discriminate.
  - apply loop_body_next in Hbody.
    destruct Hbody as (data & w' & Hread & Hlen & Hb & Hr' & _). subst b' r'.
    apply Z.gtb_lt in Hpos.
    apply Hsize in Hread; [| unfold BULK_TRANSFER_SIZE; lia].
    apply IH in Hrun; [|lia]. rewrite len_app in Hrun. lia.
  - inversion Hrun; subst out s1. clear Hrun.
    assert (b' = buffer) as ->.
    { destruct (device_read dev endpoint (Z.min remaining BULK_TRANSFER_SIZE)
                  USB_TIMEOUT_MS (world s)) as [[data | e] w'] eqn:Hread.
      - rewrite (loop_body_data _ _ _ _ _ _ _ Hread) in Hbody.
        destruct (len data =? 0); congruence.
      - rewrite (loop_body_raise _ _ _ _ _ _ _ Hread) in Hbody.
        destruct (is_USBTimeoutError e && truthy_bytes buffer); congruence. }
    lia.
Qed.

(** [read] on an open session is the loop, started with an empty buffer. *)
Lemma read_open s endpoint size dev :
  _device (self s) = Some dev ->
  read endpoint size s = while_loop (Z.to_nat size) dev endpoint [] size s.
Proof.
  intros Hdev. unfold read, Py.bind, get_self. rewrite Hdev. reflexivity.
Qed.

(** [read] from a state the loop reaches: the rest of the call is the loop
    run from there. *)
Lemma read_from_reached s endpoint size dev buffer remaining s1 :
  _device (self s) = Some dev ->
  loop_reaches dev endpoint ([], size, s) (buffer, remaining, s1) ->
  read endpoint size s =
  while_loop (Z.to_nat remaining) dev endpoint buffer remaining s1.
Proof.
  intros Hdev Hreach. rewrite (read_open _ _ _ _ Hdev).
  apply (while_loop_reaches _ _ _ _ Hreach). simpl. lia.
Qed.

(** With nothing wanted the loop is not entered. *)
Lemma while_loop_nothing_wanted f dev endpoint buffer remaining (s : state W) :
  remaining <= 0 ->
  while_loop f dev endpoint buffer remaining s = (Ok (Some buffer), s).
Proof.
  intros Hdone.
  assert ((remaining >? 0) = false) as Hgt
    by (rewrite Z.gtb_ltb; apply Z.ltb_ge; lia).
  destruct f; simpl; rewrite Hgt; reflexivity.
Qed.

Lemma loop_reaches_nothing_wanted dev endpoint buffer remaining (s : state W) y :
  remaining <= 0 ->
  loop_reaches dev endpoint (buffer, remaining, s) y ->
  y = (buffer, remaining, s).
Proof.
  intros Hdone Hreach. inversion Hreach; subst; [reflexivity | lia].
Qed.

(** C1 (amended). Whatever the endpoint and the size asked for, and
    whatever the transport answers as long as no answer is longer than the
    chunk asked for, a chunked read that returns, returns at most
    [max size 0] bytes: at most [size] bytes when [size] is not negative,
    none when it is.  The call always ends.  At the head of every pass of
    the loop the accumulator holds at most [max size 0] bytes; for a
    non-negative [size] the bytes accumulated and the bytes still wanted add
    up to [size]. *)
Theorem read_length_at_most_size (Hsize : honours_size)
    (s : state W) (endpoint size : Z) :
  match fst (read endpoint size s) with
  | Ok (Some data) => len data <= Z.max size 0
  | Ok None => False
  | Raise _ => True
  end
  /\ (forall dev buffer remaining s',
        _device (self s) = Some dev ->
        loop_reaches dev endpoint ([], size, s) (buffer, remaining, s') ->
        len buffer <= Z.max size 0
        /\ (0 <= size -> len buffer + remaining = size /\ 0 <= remaining)).
Proof.
  split.
  - destruct (_device (self s)) as [dev|] eqn:Hdev.
    + rewrite (read_open _ _ _ _ Hdev).
      destruct (Z.le_gt_cases 0 size) as [Hnonneg | Hneg].
      * pose proof (while_loop_total dev endpoint (Z.to_nat size) [] size s
                      (Nat.le_refl _)) as Htotal.
        destruct (while_loop (Z.to_nat size) dev endpoint [] size s)
          as [[[out|] | e] s'] eqn:Hrun; simpl in *.
        -- apply (while_loop_bound dev endpoint Hsize) in Hrun; [|assumption].
           change (len []) with 0 in Hrun. lia.
        -- congruence.
        -- exact I.
      * rewrite while_loop_nothing_wanted by lia. simpl.
        change (len []) with 0. lia.
    + unfold read, Py.bind, get_self. rewrite Hdev. simpl. exact I.
  - intros dev buffer remaining s' _ Hreach.
    destruct (Z.le_gt_cases 0 size) as [Hnonneg | Hneg].
    + destruct (loop_reaches_sum dev endpoint Hsize _ _ Hreach) as [Hsum Hrem];
        simpl in *; [assumption|].
      change (len []) with 0 in Hsum. pose proof (len_nonneg buffer).
      split; [lia | intros _; split; lia].
    + apply loop_reaches_nothing_wanted in Hreach; [| lia].
      inversion Hreach; subst. change (len []) with 0. split; lia.
Qed.

(** C2. A transfer that times out while the accumulator is empty makes the
    call fail with that timeout; one that times out after bytes have been
    accumulated in the same call makes the call return those bytes. *)
Theorem read_timeout_raises_or_returns_short
    (s : state W) (endpoint size : Z) dev buffer remaining s1 e w' :
  _device (self s) = Some dev ->
  loop_reaches dev endpoint ([], size, s) (buffer, remaining, s1) ->
  remaining > 0 ->
  device_read dev endpoint (Z.min remaining BULK_TRANSFER_SIZE) USB_TIMEOUT_MS
    (world s1) = (Raise e, w') ->
  is_USBTimeoutError e = true ->
  (buffer = [] ->
   read endpoint size s = (Raise e, after_request dev endpoint remaining s1 w'))
  /\ (buffer <> [] ->
      read endpoint size s =
        (Ok (Some buffer), after_request dev endpoint remaining s1 w')).
Proof.
  intros Hdev Hreach Hpos Hread Htimeout.
  rewrite (read_from_reached _ _ _ _ _ _ _ Hdev Hreach).
  destruct (Z.to_nat remaining) as [|f] eqn:Hf; [lia|].
  simpl. apply Z.gt_lt, Z.gtb_lt in Hpos. rewrite Hpos.
  unfold Py.bind. rewrite (loop_body_raise _ _ _ _ _ _ _ Hread), Htimeout.
  split; intros Hbuf.
  - subst buffer. reflexivity.
  - destruct buffer; [congruence | reflexivity].
Qed.

(** C3. A zero-length chunk ends the read at once: the call returns
    normally with exactly the bytes accumulated before it, and the request
    that was answered with no data is the last one made. *)
Theorem read_zero_length_chunk_stops
    (s : state W) (endpoint size : Z) dev buffer remaining s1 data w' :
  _device (self s) = Some dev ->
  loop_reaches dev endpoint ([], size, s) (buffer, remaining, s1) ->
  remaining > 0 ->
  device_read dev endpoint (Z.min remaining BULK_TRANSFER_SIZE) USB_TIMEOUT_MS
    (world s1) = (Ok data, w') ->
  len data = 0 ->
  read endpoint size s =
    (Ok (Some buffer),
     {| self := self s1; world := w';
        trace := trace s1 ++ [chunk_request dev endpoint remaining] |}).
Proof.
  intros Hdev Hreach Hpos Hread Hzero.
  rewrite (read_from_reached _ _ _ _ _ _ _ Hdev Hreach).
  destruct (Z.to_nat remaining) as [|f] eqn:Hf; [lia|].
  simpl. apply Z.gt_lt, Z.gtb_lt in Hpos. rewrite Hpos.
  unfold Py.bind. rewrite (loop_body_data _ _ _ _ _ _ _ Hread), Hzero.
  reflexivity.
Qed.

(** C10. On an open session a read of zero bytes, or of a negative number of
    bytes, returns the empty byte string and leaves the state as it was: no
    request reaches the device. *)
Theorem read_nonpositive_size_is_empty
    (s : state W) (endpoint size : Z) dev :
  _device (self s) = Some dev ->
  size <= 0 ->
  read endpoint size s = (Ok (Some []), s).
Proof.
  intros Hdev Hsize. rewrite (read_open _ _ _ _ Hdev).
  apply while_loop_nothing_wanted, Hsize.
Qed.

(** X1. The chunked read terminates, whatever the transport does: the loop is
    never cut off by the fuel [read] gives it, because a pass that goes
    round again has lowered [remaining] by at least one byte. *)
Theorem read_terminates (s : state W) (endpoint size : Z) :
  fst (read endpoint size s) <> Ok None.
Proof.
  destruct (_device (self s)) as [dev|] eqn:Hdev.
  - rewrite (read_open _ _ _ _ Hdev). apply while_loop_total. reflexivity.
  - unfold read, Py.bind, get_self. rewrite Hdev. discriminate.
Qed.

(** X2. A read on a session that is not open raises [RuntimeError] and
    calls nothing. *)
Theorem read_unopened_raises (s : state W) (endpoint size : Z) :
  _device (self s) = None ->
  read endpoint size s = (Raise (RuntimeError "Device not open"), s).
Proof.
  intros Hdev. unfold read, Py.bind, get_self. rewrite Hdev. reflexivity.
Qed.

(** X3. A transfer that fails with anything but a timeout makes the call fail
    with that error, also when bytes have been accumulated: they are not
    returned. *)
Theorem read_other_error_propagates
    (s : state W) (endpoint size : Z) dev buffer remaining s1 e w' :
  _device (self s) = Some dev ->
  loop_reaches dev endpoint ([], size, s) (buffer, remaining, s1) ->
  remaining > 0 ->
  device_read dev endpoint (Z.min remaining BULK_TRANSFER_SIZE) USB_TIMEOUT_MS
    (world s1) = (Raise e, w') ->
  is_USBTimeoutError e = false ->
  read endpoint size s = (Raise e, after_request dev endpoint remaining s1 w').
Proof.
  intros Hdev Hreach Hpos Hread Hother.
  rewrite (read_from_reached _ _ _ _ _ _ _ Hdev Hreach).
  destruct (Z.to_nat remaining) as [|f] eqn:Hf; [lia|].
  simpl. apply Z.gt_lt, Z.gtb_lt in Hpos. rewrite Hpos.
  unfold Py.bind. rewrite (loop_body_raise _ _ _ _ _ _ _ Hread), Hother.
  reflexivity.
Qed.

End ReadFacts.

(** ** Opening and closing the session *)

Section SessionFacts.

Context {W : Type} `{Backend W}.

Lemma bind_ok {A B} (c : Py.t (state W) A) (k : A -> Py.t (state W) B) s a s' :
  c s = (Ok a, s') -> Py.bind c k s = k a s'.
Proof. intros Hc. unfold Py.bind. rewrite Hc. reflexivity. Qed.

Lemma bind_raise {A B} (c : Py.t (state W) A) (k : A -> Py.t (state W) B) s e s' :
  c s = (Raise e, s') -> Py.bind c k s = (Raise e, s').
Proof. intros Hc. unfold Py.bind. rewrite Hc. reflexivity. Qed.

(** A cleanup step under [try: ... except usb.core.USBError: pass] always
    completes, whether the call succeeds or fails, and is recorded. *)
Lemma best_effort_step (c : call) (f : W -> result unit * W) (s : state W) :
  (forall e w', f (world s) = (Raise e, w') -> is_USBError e = true) ->
  Py.try_except (invoke c f) is_USBError (fun _ => Py.ret tt) s =
    (Ok tt, {| self := self s; world := snd (f (world s));
               trace := trace s ++ [c] |}).
Proof.
  intros Hfail. unfold Py.try_except, invoke.
  destruct (f (world s)) as [[[] | e] w'] eqn:Hf; simpl.
  - reflexivity.
  - rewrite (Hfail e w' eq_refl). reflexivity.
Qed.

(** [__exit__] makes every cleanup call and returns [False], whatever the
    calls answer. *)
Lemma exit_runs_cleanup (s : state W) :
  cleanup_fails_with_USBError ->
  exists w',
    __exit__ s =
      (Ok false, {| self := self s; world := w';
                    trace := trace s ++ cleanup_calls (self s) |}).
Proof.
  intros (Hrelease & Hattach & Hdispose).
  unfold __exit__, cleanup_calls.
  rewrite (bind_ok get_self _ s (self s) s eq_refl).
  destruct (_device (self s)) as [dev|].
  - erewrite bind_ok; [| apply best_effort_step; intros e w'; apply Hrelease ].
    destruct (_kernel_was_active (self s)).
    + erewrite bind_ok; [| apply best_effort_step; intros e w'; apply Hattach ].
      erewrite bind_ok; [| apply best_effort_step; intros e w'; apply Hdispose ].
      simpl. eexists. unfold Py.ret. rewrite <- !app_assoc. reflexivity.
    + erewrite bind_ok; [| reflexivity ].
      erewrite bind_ok; [| apply best_effort_step; intros e w'; apply Hdispose ].
      simpl. eexists. unfold Py.ret. rewrite <- !app_assoc. reflexivity.
  - exists (world s). unfold Py.ret. rewrite app_nil_r. destruct s; reflexivity.
Qed.

(** X19. When the cleanup calls fail only with [usb.core.USBError],
    closing never raises and may be repeated: for every session object,
    opened or not, and every state of the USB subsystem, [__exit__] returns
    [False] after making each cleanup call that applies (release, reattach
    when a detachment was noted, dispose), in order, a failed call not
    holding back the later ones; it leaves the session object as it was,
    and a second [__exit__] completes the same way. *)
Theorem exit_never_raises (Hfail : cleanup_fails_with_USBError) (s : state W) :
  exists w1 w2,
    __exit__ s =
      (Ok false, {| self := self s; world := w1;
                    trace := trace s ++ cleanup_calls (self s) |})
    /\ (__exit__ ;;; __exit__) s =
      (Ok false, {| self := self s; world := w2;
                    trace := (trace s ++ cleanup_calls (self s))
                             ++ cleanup_calls (self s) |}).
Proof.
  destruct (exit_runs_cleanup s Hfail) as [w1 Hfirst].
  destruct (exit_runs_cleanup
              {| self := self s; world := w1;
                 trace := trace s ++ cleanup_calls (self s) |} Hfail)
    as [w2 Hsecond].
  exists w1, w2. split; [exact Hfirst|].
  rewrite (bind_ok _ _ _ _ _ Hfirst). exact Hsecond.
Qed.

(** [__exit__] swallows [usb.core.USBError] and nothing else.  When the
    reattachment raises an exception of another class, [__exit__] raises it,
    and [dispose_resources] is not called. *)
Lemma exit_propagates_other_exceptions (s : state W) dev r w1 e w2 :
  _device (self s) = Some dev ->
  _kernel_was_active (self s) = true ->
  release_interface dev (_interface (self s)) (world s) = (r, w1) ->
  match r with Ok _ => True | Raise e1 => is_USBError e1 = true end ->
  attach_kernel_driver dev (_interface (self s)) w1 = (Raise e, w2) ->
  is_USBError e = false ->
  __exit__ s =
    (Raise e,
     {| self := self s; world := w2;
        trace := trace s ++ [CReleaseInterface dev (_interface (self s));
                             CAttachKernelDriver dev (_interface (self s))] |}).
Proof.
  intros Hdev Hnoted Hrelease Hr Hattach Hother.
  unfold __exit__. rewrite (bind_ok get_self _ s (self s) s eq_refl), Hdev, Hnoted.
  erewrite bind_ok.
  2: { apply best_effort_step. intros e1 w' Hfail.
       rewrite Hrelease in Hfail. inversion Hfail; subst. exact Hr. }
  rewrite Hrelease. simpl snd.
  erewrite bind_raise; [reflexivity|].
  unfold Py.try_except, invoke. simpl. rewrite Hattach, Hother.
  rewrite <- app_assoc. reflexivity.
Qed.

(** *** Choosing the device *)

Lemma serial_eqb_wanted (dev_serial : option string) (wanted : string) :
  serial_eqb dev_serial (Some wanted) = true <-> dev_serial = Some wanted.
Proof.
  destruct dev_serial as [a|]; simpl.
  - rewrite String.eqb_eq. split; congruence.
  - split; discriminate.
Qed.

(** One pass of the scan over a candidate that is not selected. *)
Lemma scan_step_miss wanted dev rest (s : state W) r w1 :
  _serial (self s) = Some wanted ->
  get_string dev (iSerialNumber dev) (world s) = (r, w1) ->
  no_match wanted r ->
  scan_devices (dev :: rest) s =
  scan_devices rest {| self := self s; world := w1;
                       trace := trace s ++ [get_string_call dev] |}.
Proof.
  intros Hserial Hread Hmiss. simpl.
  unfold Py.bind at 1. unfold Py.try_except, Py.bind, invoke, get_self.
  rewrite Hread. destruct r as [dev_serial | e]; simpl in *.
  - rewrite Hserial.
    destruct (serial_eqb dev_serial (Some wanted)) eqn:Heq.
    + apply serial_eqb_wanted in Heq. contradiction.
    + reflexivity.
  - rewrite Hmiss. reflexivity.
Qed.

(** A scan that selects nothing reads every descriptor and leaves the
    session object alone. *)
Lemma scan_devices_misses wanted devs w w' :
  scan_misses wanted devs w w' ->
  forall s : state W,
    world s = w ->
    _serial (self s) = Some wanted ->
    scan_devices devs s =
      (Ok tt, {| self := self s; world := w';
                 trace := trace s ++ map get_string_call devs |}).
Proof.
  induction 1 as [w | dev rest w r w1 w2 Hread Hmiss Hrest IH];
    intros s Hworld Hserial; subst w.
  - simpl. unfold Py.ret. rewrite app_nil_r. destruct s; reflexivity.
  - rewrite (scan_step_miss _ _ _ _ _ _ Hserial Hread Hmiss).
    rewrite IH by (simpl; auto). simpl. rewrite <- app_assoc. reflexivity.
Qed.

(** A scan stops at the first candidate whose descriptor reads as the wanted
    serial, and selects it. *)
Lemma scan_devices_hit wanted before w w1 :
  scan_misses wanted before w w1 ->
  forall (s : state W) dev after w2,
    world s = w ->
    _serial (self s) = Some wanted ->
    get_string dev (iSerialNumber dev) w1 = (Ok (Some wanted), w2) ->
    scan_devices (before ++ dev :: after) s =
      (Ok tt, {| self := set_device (Some dev) (self s); world := w2;
                 trace := trace s ++ map get_string_call (before ++ [dev]) |}).
Proof.
  induction 1 as [w | d rest w r w1 w2 Hread Hmiss Hrest IH];
    intros s dev after w3 Hworld Hserial Hhit; subst w.
  - simpl. unfold Py.bind at 1.
    unfold Py.try_except, Py.bind, invoke, get_self, set_self, Py.modify, Py.ret.
    rewrite Hhit. simpl. rewrite Hserial. simpl. rewrite String.eqb_refl.
    reflexivity.
  - rewrite <- app_comm_cons.
    rewrite (scan_step_miss _ _ _ _ _ _ Hserial Hread Hmiss).
    rewrite (IH _ dev after w3) by (simpl; auto).
    simpl. rewrite <- app_assoc. reflexivity.
Qed.

Lemma get_string_calls_are_not_claims (devs : list Device) :
  Forall (fun c => is_claim c = false) (map get_string_call devs).
Proof. induction devs; simpl; constructor; auto. Qed.

Lemma find_device_filtered (s : state W) wanted :
  _serial (self s) = Some wanted -> wanted <> ""%string ->
  find_device s = scan_devices (candidates (world s)) s.
Proof.
  intros Hserial Hwanted. unfold find_device, Py.bind, get_self, usb_core_find_all.
  rewrite Hserial. destruct wanted; [congruence | reflexivity].
Qed.

Lemma find_device_unfiltered (s : state W) :
  truthy_str (_serial (self s)) = false ->
  find_device s =
    (Ok tt, {| self := set_device (head (candidates (world s))) (self s);
               world := world s; trace := trace s |}).
Proof.
  intros Hserial. unfold find_device, Py.bind, get_self, usb_core_find.
  rewrite Hserial. reflexivity.
Qed.

(** When [find_device] leaves no device selected, [__enter__] raises
    without calling the library again. *)
Lemma enter_not_found (s s' : state W) :
  find_device s = (Ok tt, s') ->
  _device (self s') = None ->
  __enter__ s = (Raise (RuntimeError "No ChaosKey device found"), s').
Proof.
  intros Hfind Hnone. unfold __enter__.
  rewrite (bind_ok _ _ _ _ _ Hfind).
  unfold Py.bind, get_self. rewrite Hnone. reflexivity.
Qed.

(** When [find_device] has selected a device, [__enter__] goes on to detach
    the kernel driver of that device and to claim its interface. *)
Lemma enter_selected (s s' : state W) dev :
  find_device s = (Ok tt, s') ->
  _device (self s') = Some dev ->
  __enter__ s = detach_and_claim dev s'.
Proof.
  intros Hfind Hsome. unfold __enter__.
  rewrite (bind_ok _ _ _ _ _ Hfind).
  unfold Py.bind at 1. unfold get_self at 1. rewrite Hsome. reflexivity.
Qed.

(** C6. Opening an unopened session, for every list of attached devices.
    With a serial filter, the candidate selected is the first whose serial
    descriptor is read successfully and equals the filter; the candidates
    before it, whose descriptor read failed or gave another serial, are
    passed over.  Without a filter it is the first candidate.  The open
    then goes on with the device selected.  When no candidate is selected
    the open fails with the not-found error, and the only library calls made
    are descriptor reads: no interface claim.  (A filter counts as supplied
    when it is a non-empty string, as in [if self._serial:].) *)
Theorem enter_selects_first_match (s : state W) :
  _device (self s) = None ->
  (forall wanted,
      _serial (self s) = Some wanted -> wanted <> ""%string ->
      (forall before dev after w1 w2,
          candidates (world s) = before ++ dev :: after ->
          scan_misses wanted before (world s) w1 ->
          get_string dev (iSerialNumber dev) w1 = (Ok (Some wanted), w2) ->
          let selected :=
            {| self := set_device (Some dev) (self s); world := w2;
               trace := trace s ++ map get_string_call (before ++ [dev]) |} in
          find_device s = (Ok tt, selected)
          /\ __enter__ s = detach_and_claim dev selected)
      /\ (forall w1,
          scan_misses wanted (candidates (world s)) (world s) w1 ->
          __enter__ s =
            (Raise (RuntimeError "No ChaosKey device found"),
             {| self := self s; world := w1;
                trace := trace s ++ map get_string_call (candidates (world s)) |})))
  /\ (truthy_str (_serial (self s)) = false ->
      let selected :=
        {| self := set_device (head (candidates (world s))) (self s);
           world := world s; trace := trace s |} in
      find_device s = (Ok tt, selected)
      /\ (forall dev, head (candidates (world s)) = Some dev ->
          __enter__ s = detach_and_claim dev selected)
      /\ (candidates (world s) = [] ->
          __enter__ s =
            (Raise (RuntimeError "No ChaosKey device found"),
             {| self := set_device None (self s);
                world := world s; trace := trace s |})))
  /\ Forall (fun c => is_claim c = false)
        (map get_string_call (candidates (world s))).
Proof.
  intros Hunopened. split; [| split].
  - intros wanted Hserial Hwanted. split.
    + intros before dev after w1 w2 Hcands Hmisses Hhit selected.
      assert (find_device s = (Ok tt, selected)) as Hfind.
      { rewrite (find_device_filtered _ _ Hserial Hwanted), Hcands.
        apply (scan_devices_hit _ _ _ _ Hmisses); auto. }
      split; [exact Hfind | apply (enter_selected _ _ _ Hfind); reflexivity].
    + intros w1 Hmisses. apply enter_not_found; [| exact Hunopened].
      rewrite (find_device_filtered _ _ Hserial Hwanted).
      apply (scan_devices_misses _ _ _ _ Hmisses); auto.
  - intros Hserial selected.
    pose proof (find_device_unfiltered _ Hserial) as Hfind.
    split; [exact Hfind | split].
    + intros dev Hhead. apply (enter_selected _ _ _ Hfind). exact Hhead.
    + intros Hnone. apply enter_not_found; [| reflexivity].
      rewrite Hfind, Hnone. reflexivity.
  - apply get_string_calls_are_not_claims.
Qed.

(** *** A failed open *)

(** The [with] statement does not call [__exit__] when [__enter__] raises. *)
Lemma with_session_enter_raises {A} (body : Py.t (state W) A) (s s' : state W) e :
  __enter__ s = (Raise e, s') ->
  with_session body s = (Raise e, s').
Proof. intros Henter. unfold with_session. rewrite Henter. reflexivity. Qed.

(** An open that detaches the kernel driver and is then refused the
    interface: the error of the claim leaves [__enter__], the detachment
    stays noted in the session object, and the calls made are the query, the
    detachment and the claim. *)
Lemma enter_claim_refused (s : state W) dev w1 w2 w3 e :
  truthy_str (_serial (self s)) = false ->
  head (candidates (world s)) = Some dev ->
  is_kernel_driver_active dev (_interface (self s)) (world s) = (Ok true, w1) ->
  detach_kernel_driver dev (_interface (self s)) w1 = (Ok tt, w2) ->
  claim_interface dev (_interface (self s)) w2 = (Raise e, w3) ->
  __enter__ s =
    (Raise e,
     {| self := set_kernel_was_active true (set_device (Some dev) (self s));
        world := w3;
        trace := trace s ++ [CIsKernelDriverActive dev (_interface (self s));
                             CDetachKernelDriver dev (_interface (self s));
                             CClaimInterface dev (_interface (self s))] |}).
Proof.
  intros Hserial Hhead Hactive Hdetach Hclaim. unfold __enter__.
  rewrite (bind_ok _ _ _ _ _ (find_device_unfiltered _ Hserial)), Hhead.
  cbv [Py.bind get_self detach_and_claim detach_if_active Py.try_except
         invoke set_self Py.modify Py.ret]. simpl.
  rewrite Hactive. simpl. rewrite Hdetach. simpl. rewrite Hclaim.
  rewrite <- !app_assoc. reflexivity.
Qed.

(** The same open inside the [with] statement: the statement is left with
    the error of the claim and nothing more is called, so the kernel driver
    is not reattached. *)
Lemma with_session_claim_refused {A} (body : Py.t (state W) A)
    (s : state W) dev w1 w2 w3 e :
  truthy_str (_serial (self s)) = false ->
  head (candidates (world s)) = Some dev ->
  is_kernel_driver_active dev (_interface (self s)) (world s) = (Ok true, w1) ->
  detach_kernel_driver dev (_interface (self s)) w1 = (Ok tt, w2) ->
  claim_interface dev (_interface (self s)) w2 = (Raise e, w3) ->
  exists calls,
    with_session body s =
      (Raise e,
       {| self := set_kernel_was_active true (set_device (Some dev) (self s));
          world := w3;
          trace := trace s ++ calls |})
    /\ existsb is_attach calls = false.
Proof.
  intros Hserial Hhead Hactive Hdetach Hclaim.
  eexists. split.
  - apply with_session_enter_raises.
    apply (enter_claim_refused s dev w1 w2 w3 e); assumption.
  - reflexivity.
Qed.

End SessionFacts.

(** ** The capture loop *)

Lemma py_truediv_positive (a b : Q) :
  (0 < b)%Q -> py_truediv a b = Ok (a / b)%Q.
Proof.
  intros Hb. unfold py_truediv.
  destruct (Qeq_bool b 0) eqn:Hzero; [| reflexivity].
  apply Qeq_bool_iff in Hzero. lra.
Qed.

Lemma py_truediv_by_count (a : Q) (n : Z) :
  n <> 0 -> py_truediv a (inject_Z n) = Ok (a / inject_Z n)%Q.
Proof.
  intros Hn. unfold py_truediv.
  destruct (Qeq_bool (inject_Z n) 0) eqn:Hzero; [| reflexivity].
  apply Qeq_bool_iff in Hzero. unfold Qeq in Hzero. simpl in Hzero. lia.
Qed.

Lemma scaled_elapsed_positive (elapsed : Q) :
  (0 < elapsed)%Q -> (0 < elapsed * 1000000)%Q.
Proof. intros Hpos. lra. Qed.

(** A positive elapsed time: the rate is the quotient, times eight. *)
Lemma transfer_rate_positive (data_len : Z) (elapsed : Q) :
  (0 < elapsed)%Q ->
  transfer_rate data_len elapsed =
    Ok (inject_Z data_len / (elapsed * 1000000) * 8)%Q.
Proof.
  intros Hpos. unfold transfer_rate.
  destruct (Qlt_le_dec 0 elapsed) as [_ | Hneg]; [| lra].
  rewrite (py_truediv_positive _ _ (scaled_elapsed_positive _ Hpos)).
  reflexivity.
Qed.

(** An elapsed time of zero or less: the rate is 0, and [py_truediv] is not
    reached. *)
Lemma transfer_rate_nonpositive (data_len : Z) (elapsed : Q) :
  (elapsed <= 0)%Q -> transfer_rate data_len elapsed = Ok 0%Q.
Proof.
  intros Hneg. unfold transfer_rate.
  destruct (Qlt_le_dec 0 elapsed) as [Hpos | _]; [lra | reflexivity].
Qed.

Lemma transfer_rate_total (data_len : Z) (elapsed : Q) :
  exists rate, transfer_rate data_len elapsed = Ok rate.
Proof.
  destruct (Qlt_le_dec 0 elapsed) as [Hpos | Hneg].
  - rewrite (transfer_rate_positive _ _ Hpos). eexists; reflexivity.
  - rewrite (transfer_rate_nonpositive _ _ Hneg). eexists; reflexivity.
Qed.

(** C9. The rate shown for a block never faults: for every elapsed time
    there is a rate; an elapsed time of zero or less gives the rate 0 with no
    division made; and when a division is made its divisor,
    [elapsed * 1000000], is positive. *)
Theorem transfer_rate_never_faults (data_len : Z) (elapsed : Q) :
  (exists rate, transfer_rate data_len elapsed = Ok rate)
  /\ ((elapsed <= 0)%Q -> transfer_rate data_len elapsed = Ok 0%Q)
  /\ ((0 < elapsed)%Q ->
      (0 < elapsed * 1000000)%Q
      /\ transfer_rate data_len elapsed =
           Ok (inject_Z data_len / (elapsed * 1000000) * 8)%Q).
Proof.
  split; [apply transfer_rate_total | split].
  - apply transfer_rate_nonpositive.
  - intros Hpos. split.
    + apply scaled_elapsed_positive, Hpos.
    + apply transfer_rate_positive, Hpos.
Qed.

(** *** One pass of the capture loop over a scripted device *)

(** The next read returns data: the block is written and counted, a
    progress line is printed, and the loop goes on. *)
Lemma for_blocks_step_data endpoint num_loops block_size i more total env d rest :
  num_loops <> 0 ->
  responses (device env) = Ok d :: rest ->
  len d <> 0 ->
  exists line,
    progress_of num_loops line (i + 1)
    /\ for_blocks script_read script_time endpoint num_loops block_size
         (i :: more) total env =
       for_blocks script_read script_time endpoint num_loops block_size
         more (total + len d)
         {| device := after_reads 1 endpoint block_size rest (device env);
            output_file := output_file env ++ d;
            stdout := stdout env ++ [line] |}.
Proof.
  intros Hloops Hnext Hlen.
  destruct (transfer_rate_total (len d)
              (clock (device env) (S (ticks (device env)))
               - clock (device env) (ticks (device env)))%Q)
    as [rate Hrate].
  eexists. split; [eexists; eexists; reflexivity|].
  simpl for_blocks at 1.
  cbv [Py.bind Py.try_except now on_device script_time script_read Py.ret
       write print Py.modify lift_result].
  simpl. rewrite Hnext. simpl.
  apply Z.eqb_neq in Hlen.
  rewrite Hlen, Hrate, (py_truediv_by_count _ _ Hloops). reflexivity.
Qed.

(** The next read returns no data: the loop is left with the total so far,
    after reporting the block. *)
Lemma for_blocks_step_empty endpoint num_loops block_size i more total env rest :
  responses (device env) = Ok [] :: rest ->
  for_blocks script_read script_time endpoint num_loops block_size
    (i :: more) total env =
    (Ok total,
     {| device := after_reads 1 endpoint block_size rest (device env);
        output_file := output_file env;
        stdout := stdout env ++ [NoDataReceived (i + 1)] |}).
Proof.
  intros Hnext. simpl for_blocks.
  cbv [Py.bind Py.try_except now on_device script_time script_read Py.ret
       write print Py.modify lift_result].
  simpl. rewrite Hnext. reflexivity.
Qed.

(** The next read fails with a USB error: the loop is left with the total
    so far, after reporting the block and the error; the clock was read
    once. *)
Lemma for_blocks_step_error endpoint num_loops block_size i more total env e rest :
  responses (device env) = Raise e :: rest ->
  is_USBError e = true ->
  for_blocks script_read script_time endpoint num_loops block_size
    (i :: more) total env =
    (Ok total,
     {| device := {| responses := rest; clock := clock (device env);
                     ticks := S (ticks (device env));
                     asked := asked (device env) ++ [(endpoint, block_size)] |};
        output_file := output_file env;
        stdout := stdout env ++ [ReadFailed (i + 1) e] |}).
Proof.
  intros Hnext Husb. simpl for_blocks.
  cbv [Py.bind Py.try_except now on_device script_time script_read Py.ret
       write print Py.modify lift_result].
  simpl. rewrite Hnext. simpl. rewrite Husb. reflexivity.
Qed.

Lemma after_reads_more n k endpoint size rest rest' (m : script) :
  after_reads n endpoint size rest (after_reads k endpoint size rest' m) =
  after_reads (k + n) endpoint size rest m.
Proof.
  unfold after_reads. simpl. f_equal; [lia|].
  rewrite <- app_assoc, repeat_app. reflexivity.
Qed.

(** A run of reads that all return data: every block is written in order
    and counted with its own length, one progress line is printed per
    block, and the loop goes on with the indices that remain. *)
Lemma for_blocks_prefix endpoint num_loops block_size :
  num_loops <> 0 ->
  forall blocks first more total env rest,
    Forall (fun d => len d <> 0) blocks ->
    responses (device env) = map Ok blocks ++ rest ->
    exists lines,
      Forall2 (progress_of num_loops) lines (block_numbers first (List.length blocks))
      /\ for_blocks script_read script_time endpoint num_loops block_size
           (map Z.of_nat (seq first (List.length blocks)) ++ more) total env =
         for_blocks script_read script_time endpoint num_loops block_size
           more (total + total_len blocks)
           {| device := after_reads (List.length blocks) endpoint block_size rest
                          (device env);
              output_file := output_file env ++ concat blocks;
              stdout := stdout env ++ lines |}.
Proof.
  intros Hloops.
  induction blocks as [|d blocks IH]; intros first more total env rest Hdata Hnext.
  - exists []. split; [constructor|].
    destruct env as [[resp clk t a] out std]. simpl in *. subst resp.
    unfold after_reads. simpl. rewrite !app_nil_r, Z.add_0_r. reflexivity.
  - inversion Hdata as [|? ? Hd Hrest]; subst.
    destruct (for_blocks_step_data endpoint num_loops block_size
                (Z.of_nat first) (map Z.of_nat (seq (S first) (List.length blocks)) ++ more)
                total env d (map Ok blocks ++ rest) Hloops Hnext Hd)
      as (line & Hline & Hstep).
    destruct (IH (S first) more (total + len d)
                {| device := after_reads 1 endpoint block_size
                               (map Ok blocks ++ rest) (device env);
                   output_file := output_file env ++ d;
                   stdout := stdout env ++ [line] |}
                rest Hrest eq_refl)
      as (lines & Hlines & Hrun).
    exists (line :: lines). split.
    + unfold block_numbers. simpl. constructor; assumption.
    + simpl List.length. simpl seq. simpl map. rewrite <- app_comm_cons.
      rewrite Hstep, Hrun. simpl device. simpl output_file. simpl stdout.
      rewrite after_reads_more, <- !app_assoc, <- Z.add_assoc. reflexivity.
Qed.

Lemma total_len_full (blocks : list (list byte)) (block_size : Z) :
  Forall (fun d => len d = block_size) blocks ->
  total_len blocks = Z.of_nat (List.length blocks) * block_size.
Proof.
  induction 1 as [|d blocks Hd _ IH]; [reflexivity|].
  simpl total_len. rewrite IH, Hd. simpl List.length. lia.
Qed.

Lemma len_concat (blocks : list (list byte)) :
  len (concat blocks) = total_len blocks.
Proof.
  induction blocks as [|d blocks IH]; [reflexivity|].
  simpl. unfold len in *. rewrite length_app. lia.
Qed.

Lemma len_mebibyte : len mebibyte = 1048576.
Proof.
  unfold len, mebibyte. rewrite repeat_length. apply Z2Nat.id. lia.
Qed.

(** C8. When each of the [block_count] reads returns data, the capture loop
    goes through all the blocks: it returns the sum of the lengths returned,
    a short read counting for its own length; the sink holds the blocks in
    the order they were returned; a progress line is printed for each of the
    blocks 1 to [block_count]; and when every read returned a full block of
    [block_size] bytes the value returned is [block_count * block_size]. *)
Theorem capture_completes_all_blocks
    (blocks : list (list byte)) (rest : list (result (list byte)))
    (clk : nat -> Q) (t0 : nat) (endpoint block_size : Z) :
  Forall (fun d => len d <> 0) blocks ->
  let block_count := Z.of_nat (List.length blocks) in
  let m := {| responses := map Ok blocks ++ rest; clock := clk; ticks := t0;
              asked := [] |} in
  exists lines,
    script_capture endpoint block_count block_size (script_env m) =
      (Ok (total_len blocks),
       {| device := after_reads (List.length blocks) endpoint block_size rest m;
          output_file := concat blocks;
          stdout := lines ++ [Newline] |})
    /\ Forall2 (progress_of block_count) lines (block_numbers 0 (List.length blocks))
    /\ len (concat blocks) = total_len blocks
    /\ (Forall (fun d => len d = block_size) blocks ->
        total_len blocks = block_count * block_size).
Proof.
  intros Hdata block_count m.
  assert (exists lines,
             script_capture endpoint block_count block_size (script_env m) =
               (Ok (total_len blocks),
                {| device := after_reads (List.length blocks) endpoint block_size
                               rest m;
                   output_file := concat blocks;
                   stdout := lines ++ [Newline] |})
             /\ Forall2 (progress_of block_count) lines
                  (block_numbers 0 (List.length blocks)))
    as (lines & Hrun & Hlines).
  { destruct (Nat.eq_dec (List.length blocks) 0) as [Hnone | Hsome].
    - apply length_zero_iff_nil in Hnone. subst blocks.
      exists []. split; [reflexivity | constructor].
    - assert (block_count <> 0) as Hloops by (unfold block_count; lia).
      destruct (for_blocks_prefix endpoint block_count block_size Hloops
                  blocks 0%nat [] 0 (script_env m) rest Hdata eq_refl)
        as (lines & Hlines & Hrun).
      exists lines. split; [| exact Hlines].
      unfold script_capture, capture_data, range, block_count.
      rewrite Nat2Z.id. rewrite app_nil_r in Hrun.
      unfold Py.bind at 1. fold block_count. rewrite Hrun. reflexivity. }
  exists lines. split; [exact Hrun | split; [exact Hlines | split]].
  - apply len_concat.
  - apply total_len_full.
Qed.

(** C7. Three blocks of one mebibyte are asked for and the reads return one
    mebibyte, one mebibyte and then nothing: two mebibytes are written to the
    sink, in order; the third read is reported as having received no data at
    block 3; the loop ends there, two progress lines having been printed;
    2097152 is returned. *)
Theorem capture_stops_when_third_read_is_empty
    (d1 d2 : list byte) (rest : list (result (list byte)))
    (clk : nat -> Q) (t0 : nat) (endpoint : Z) :
  len d1 = 1048576 ->
  len d2 = 1048576 ->
  let m := {| responses := [Ok d1; Ok d2; Ok []] ++ rest; clock := clk;
              ticks := t0; asked := [] |} in
  exists line1 line2,
    script_capture endpoint 3 1048576 (script_env m) =
      (Ok 2097152,
       {| device := after_reads 3 endpoint 1048576 rest m;
          output_file := d1 ++ d2;
          stdout := [line1; line2; NoDataReceived 3; Newline] |})
    /\ progress_of 3 line1 1
    /\ progress_of 3 line2 2
    /\ len (d1 ++ d2) = 2097152.
Proof.
  intros H1 H2 m.
  destruct (for_blocks_prefix endpoint 3 1048576 ltac:(discriminate)
              [d1; d2] 0%nat [2] 0 (script_env m) (Ok [] :: rest))
    as (lines & Hlines & Hrun).
  { repeat constructor; lia. }
  { reflexivity. }
  inversion Hlines as [|line1 ? lines1 ? Hl1 Hrest1]; subst.
  inversion Hrest1 as [|line2 ? lines2 ? Hl2 Hrest2]; subst.
  inversion Hrest2; subst.
  exists line1, line2. split; [| split; [exact Hl1 | split; [exact Hl2 |]]].
  - unfold script_capture, capture_data.
    change (range 3) with (map Z.of_nat (seq 0 (List.length [d1; d2])) ++ [2]).
    unfold Py.bind at 1. rewrite Hrun.
    rewrite for_blocks_step_empty with (rest := rest) by reflexivity.
    simpl device. rewrite after_reads_more.
    simpl. rewrite H1, H2, app_nil_r. reflexivity.
  - rewrite len_app. lia.
Qed.

(** The indices of the loop, split at block [n + 1]. *)
Lemma range_split (n : nat) (count : Z) :
  Z.of_nat n < count ->
  exists more, range count = map Z.of_nat (seq 0 n) ++ Z.of_nat n :: more.
Proof.
  intros Hlt. unfold range.
  replace (Z.to_nat count) with (n + S (Z.to_nat count - S n))%nat by lia.
  rewrite seq_app, map_app. simpl. eexists. reflexivity.
Qed.

(** X4. A read that fails with a USB error ends the capture: the blocks read
    before it are in the sink and make up the value returned, and the block
    and the error are reported. *)
Theorem capture_stops_at_failed_read
    (blocks : list (list byte)) (e : exn) (rest : list (result (list byte)))
    (clk : nat -> Q) (t0 : nat) (endpoint block_count block_size : Z) :
  Forall (fun d => len d <> 0) blocks ->
  is_USBError e = true ->
  Z.of_nat (length blocks) < block_count ->
  let m := {| responses := map Ok blocks ++ Raise e :: rest; clock := clk;
              ticks := t0; asked := [] |} in
  exists lines,
    script_capture endpoint block_count block_size (script_env m) =
      (Ok (total_len blocks),
       {| device := {| responses := rest; clock := clk;
                       ticks := S (2 * length blocks + t0);
                       asked := repeat (endpoint, block_size) (length blocks)
                                ++ [(endpoint, block_size)] |};
          output_file := concat blocks;
          stdout := lines ++ [ReadFailed (Z.of_nat (length blocks) + 1) e;
                              Newline] |})
    /\ Forall2 (progress_of block_count) lines (block_numbers 0 (length blocks)).
Proof.
  intros Hdata Husb Hlt m.
  destruct (range_split _ _ Hlt) as [more Hrange].
  assert (block_count <> 0) as Hloops by lia.
  destruct (for_blocks_prefix endpoint block_count block_size Hloops
              blocks 0%nat
              (Z.of_nat (length blocks) :: more) 0 (script_env m)
              (Raise e :: rest) Hdata eq_refl)
    as (lines & Hlines & Hrun).
  exists lines. split; [| exact Hlines].
  unfold script_capture, capture_data. rewrite Hrange.
  unfold Py.bind at 1. rewrite Hrun.
  rewrite for_blocks_step_error with (rest := rest) (e := e)
    by (reflexivity || assumption).
  cbv [Py.bind print Py.modify Py.ret]. simpl.
  rewrite <- app_assoc. reflexivity.
Qed.

(** X5. A read that returns no data ends the capture: the blocks read before it
    are in the sink and make up the value returned, and the block is
    reported. *)
Theorem capture_stops_at_empty_read
    (blocks : list (list byte)) (rest : list (result (list byte)))
    (clk : nat -> Q) (t0 : nat) (endpoint block_count block_size : Z) :
  Forall (fun d => len d <> 0) blocks ->
  Z.of_nat (length blocks) < block_count ->
  let m := {| responses := map Ok blocks ++ Ok [] :: rest; clock := clk;
              ticks := t0; asked := [] |} in
  exists lines,
    script_capture endpoint block_count block_size (script_env m) =
      (Ok (total_len blocks),
       {| device := after_reads (S (length blocks)) endpoint block_size rest m;
          output_file := concat blocks;
          stdout := lines ++ [NoDataReceived (Z.of_nat (length blocks) + 1);
                              Newline] |})
    /\ Forall2 (progress_of block_count) lines (block_numbers 0 (length blocks)).
Proof.
  intros Hdata Hlt m.
  destruct (range_split _ _ Hlt) as [more Hrange].
  assert (block_count <> 0) as Hloops by lia.
  destruct (for_blocks_prefix endpoint block_count block_size Hloops
              blocks 0%nat
              (Z.of_nat (length blocks) :: more) 0 (script_env m)
              (Ok [] :: rest) Hdata eq_refl)
    as (lines & Hlines & Hrun).
  exists lines. split; [| exact Hlines].
  unfold script_capture, capture_data. rewrite Hrange.
  unfold Py.bind at 1. rewrite Hrun.
  rewrite for_blocks_step_empty with (rest := rest) by reflexivity.
  simpl device. rewrite after_reads_more.
  replace (length blocks + 1)%nat with (S (length blocks)) by lia.
  cbv [Py.bind print Py.modify Py.ret]. cbn [device output_file stdout].
  rewrite <- app_assoc. reflexivity.
Qed.

(** ** The properties on the simulated host and the scripted device *)

Lemma sim_honours_size : @honours_size sim sim_backend.
Proof.
  intros dev endpoint size timeout w data w' Hpos Hread.
  change (sim_read dev endpoint size timeout w = (Ok data, w')) in Hread.
  unfold sim_read, sim_plugged in Hread.
  destruct (sim_unplugged w); [discriminate|].
  destruct (sim_packets w) as [|[d|e] rest]; inversion Hread; subst.
  unfold len. rewrite length_firstn. lia.
Qed.

Lemma sim_cleanup_fails_with_USBError : @cleanup_fails_with_USBError sim sim_backend.
Proof.
  repeat split.
  - intros dev i w e w' Hcall.
    change (sim_release dev i w = (Raise e, w')) in Hcall.
    unfold sim_release, sim_plugged in Hcall.
    destruct (sim_unplugged w); inversion Hcall; reflexivity.
  - intros dev i w e w' Hcall.
    change (sim_attach dev i w = (Raise e, w')) in Hcall.
    unfold sim_attach, sim_plugged in Hcall.
    destruct (sim_unplugged w), (sim_kernel_driver w); inversion Hcall; reflexivity.
  - intros dev w e w' Hcall.
    change (sim_dispose dev w = (Raise e, w')) in Hcall.
    unfold sim_dispose, sim_plugged in Hcall.
    destruct (sim_unplugged w); inversion Hcall; reflexivity.
Qed.

(** After the first packet of three bytes, two of the five bytes asked for
    are still wanted. *)
Lemma three_bytes_reached (packets : list (result (list byte))) :
  loop_reaches key_a ENDPOINT_COOKED
    ([], 5, opened (host_with_packets (Ok [x01; x02; x03] :: packets)))
    ([x01; x02; x03], 2,
     after_request key_a ENDPOINT_COOKED 5
       (opened (host_with_packets (Ok [x01; x02; x03] :: packets)))
       (host_with_packets packets)).
Proof.
  eapply reaches_next; [reflexivity | reflexivity | apply reaches_here].
Qed.

(** Five bytes asked of a key that has seven ready. *)
Lemma read_length_at_most_size_witness :
  match fst (read ENDPOINT_COOKED 5 (opened streaming_host)) with
  | Ok (Some data) => len data <= Z.max 5 0
  | Ok None => False
  | Raise _ => True
  end
  /\ (forall dev buffer remaining s',
        _device (self (opened streaming_host)) = Some dev ->
        loop_reaches dev ENDPOINT_COOKED ([], 5, opened streaming_host)
          (buffer, remaining, s') ->
        len buffer <= Z.max 5 0
        /\ (0 <= 5 -> len buffer + remaining = 5 /\ 0 <= remaining)).
Proof.
  exact (read_length_at_most_size sim_honours_size (opened streaming_host)
           ENDPOINT_COOKED 5).
Defined.

(** The claim as first stated fails in two ways.  Asked for a negative
    number of bytes, the read returns the empty byte string, which is longer
    than what was asked for.  And the loop does not cut what the transport
    hands it: on a transport that delivers two bytes when one is asked for,
    a read of one byte returns two. *)
Lemma read_can_exceed_size :
  (fst (read ENDPOINT_COOKED (-4) (opened streaming_host)) = Ok (Some [])
   /\ -4 < len [])
  /\ (fst (read ENDPOINT_COOKED 1
              {| self := open_on_key_a; world := {| babbled := 0 |};
                 trace := [] |}) = Ok (Some [x01; x02])
      /\ 1 < len [x01; x02]).
Proof. repeat split. Qed.

(** A key that is silent from the start, and one that falls silent after
    three bytes. *)
Lemma read_timeout_raises_or_returns_short_witness :
  read ENDPOINT_COOKED 5 (opened silent_host) =
    (Raise (USBTimeoutError "Operation timed out"),
     after_request key_a ENDPOINT_COOKED 5 (opened silent_host) silent_host)
  /\ read ENDPOINT_COOKED 5 (opened stalling_host) =
    (Ok (Some [x01; x02; x03]),
     after_request key_a ENDPOINT_COOKED 2
       (after_request key_a ENDPOINT_COOKED 5 (opened stalling_host) silent_host)
       silent_host).
Proof.
  split.
  - refine (proj1 (read_timeout_raises_or_returns_short (opened silent_host)
                     ENDPOINT_COOKED 5 key_a [] 5 (opened silent_host)
                     (USBTimeoutError "Operation timed out") silent_host
                     _ _ _ _ _) _).
    + reflexivity.
    + apply reaches_here.
    + reflexivity.
    + reflexivity.
    + reflexivity.
    + reflexivity.
  - refine (proj2 (read_timeout_raises_or_returns_short (opened stalling_host)
                     ENDPOINT_COOKED 5 key_a [x01; x02; x03] 2 _
                     (USBTimeoutError "Operation timed out") silent_host
                     _ (three_bytes_reached []) _ _ _) _).
    + reflexivity.
    + reflexivity.
    + reflexivity.
    + reflexivity.
    + discriminate.
Defined.

(** A key that delivers three bytes and then a zero-length packet: the
    packet queued behind it is not asked for. *)
Lemma read_zero_length_chunk_stops_witness :
  read ENDPOINT_COOKED 5 (opened drained_host) =
    (Ok (Some [x01; x02; x03]),
     {| self := open_on_key_a;
        world := host_with_packets [Ok [x09]];
        trace := [CRead key_a ENDPOINT_COOKED 5 USB_TIMEOUT_MS;
                  CRead key_a ENDPOINT_COOKED 2 USB_TIMEOUT_MS] |}).
Proof.
  refine (read_zero_length_chunk_stops (opened drained_host)
            ENDPOINT_COOKED 5 key_a [x01; x02; x03] 2 _ []
            (host_with_packets [Ok [x09]])
            _ (three_bytes_reached [Ok []; Ok [x09]]) _ _ _).
  - reflexivity.
  - reflexivity.
  - reflexivity.
  - reflexivity.
Defined.

(** Zero bytes, and a negative number of bytes, asked of a key with data
    ready. *)
Lemma read_nonpositive_size_is_empty_witness :
  read ENDPOINT_COOKED 0 (opened streaming_host) =
    (Ok (Some []), opened streaming_host)
  /\ read ENDPOINT_RAW (-4) (opened streaming_host) =
    (Ok (Some []), opened streaming_host).
Proof.
  split.
  - apply (read_nonpositive_size_is_empty (opened streaming_host)
             ENDPOINT_COOKED 0 key_a); [reflexivity | lia].
  - apply (read_nonpositive_size_is_empty (opened streaming_host)
             ENDPOINT_RAW (-4) key_a); [reflexivity | lia].
Defined.

(** Closing a session whose key was pulled out: the three cleanup calls all
    fail. *)
Lemma exit_never_raises_witness :
  exists w1 w2,
    __exit__ (opened unplugged_host) =
      (Ok false,
       {| self := self (opened unplugged_host); world := w1;
          trace := trace (opened unplugged_host)
                   ++ cleanup_calls (self (opened unplugged_host)) |})
    /\ (__exit__ ;;; __exit__) (opened unplugged_host) =
      (Ok false,
       {| self := self (opened unplugged_host); world := w2;
          trace := (trace (opened unplugged_host)
                    ++ cleanup_calls (self (opened unplugged_host)))
                   ++ cleanup_calls (self (opened unplugged_host)) |}).
Proof.
  exact (exit_never_raises sim_cleanup_fails_with_USBError (opened unplugged_host)).
Defined.

(** The three failures, as they happen. *)
Example exit_on_unplugged_host :
  __exit__ (opened unplugged_host) =
    (Ok false,
     {| self := open_on_key_a; world := unplugged_host;
        trace := [CReleaseInterface key_a 0; CAttachKernelDriver key_a 0;
                  CDisposeResources key_a] |}).
Proof. reflexivity. Qed.

(** Closing a session that was never opened calls nothing. *)
Example exit_on_unopened_session :
  __exit__ (fresh (W := sim) None unplugged_host) =
    (Ok false, fresh None unplugged_host).
Proof. reflexivity. Qed.

Lemma key_a_is_passed_over (wanted : string) :
  scan_misses wanted [key_a] two_keys two_keys.
Proof.
  eapply misses_cons; [reflexivity | reflexivity | apply misses_nil].
Qed.

(** Two keys attached, the serial descriptor of the first unreadable: a
    filter equal to the serial of the second selects the second; a filter
    that matches neither fails the open after the two descriptor reads; no
    filter selects the first. *)
Lemma enter_selects_first_match_witness :
  find_device (fresh (Some "B2"%string) two_keys) =
    (Ok tt, {| self := set_device (Some key_b) (__init__ (Some "B2"%string));
               world := two_keys;
               trace := [get_string_call key_a; get_string_call key_b] |})
  /\ __enter__ (fresh (Some "ZZ"%string) two_keys) =
    (Raise (RuntimeError "No ChaosKey device found"),
     {| self := __init__ (Some "ZZ"%string);
        world := two_keys;
        trace := [get_string_call key_a; get_string_call key_b] |})
  /\ find_device (fresh None two_keys) =
    (Ok tt, {| self := set_device (Some key_a) (__init__ None);
               world := two_keys; trace := [] |}).
Proof.
  split; [| split].
  - destruct (enter_selects_first_match (fresh (Some "B2"%string) two_keys) eq_refl)
      as (Hfilter & _ & _).
    destruct (Hfilter "B2"%string eq_refl ltac:(discriminate)) as [Hhit _].
    apply (Hhit [key_a] key_b [] two_keys two_keys eq_refl
             (key_a_is_passed_over _) eq_refl).
  - destruct (enter_selects_first_match (fresh (Some "ZZ"%string) two_keys) eq_refl)
      as (Hfilter & _ & _).
    destruct (Hfilter "ZZ"%string eq_refl ltac:(discriminate)) as [_ Hmiss].
    apply (Hmiss two_keys).
    eapply misses_cons; [reflexivity | reflexivity |].
    eapply misses_cons; [reflexivity | discriminate | apply misses_nil].
  - destruct (enter_selects_first_match (fresh None two_keys) eq_refl)
      as (_ & Hnofilter & _).
    destruct (Hnofilter eq_refl) as [Hfirst _]. exact Hfirst.
Defined.

(** The open with the filter [B2] then claims the second key. *)
Example enter_claims_the_selected_key :
  __enter__ (fresh (Some "B2"%string) two_keys) =
    (Ok tt,
     {| self := set_device (Some key_b) (__init__ (Some "B2"%string));
        world := sim_set_claimed true two_keys;
        trace := [get_string_call key_a; get_string_call key_b;
                  CIsKernelDriverActive key_b 0; CClaimInterface key_b 0] |}).
Proof. reflexivity. Qed.

(** C5. A key bound to its kernel driver, its interface held by another
    process, opened by the [with] statement of [main]: the open detaches the
    kernel driver, the claim is refused, and the error of the claim leaves
    the statement.  [__exit__] is not run: the calls made are the query, the
    detachment and the claim, no reattachment, and the kernel driver is left
    detached, with the detachment noted in the session object. *)
Theorem failed_open_leaves_kernel_driver_detached :
  with_session (read ENDPOINT_COOKED 16) (fresh None busy_host) =
    (Raise EBUSY,
     {| self := open_on_key_a;
        world := sim_set_kernel_driver false busy_host;
        trace := [CIsKernelDriverActive key_a 0; CDetachKernelDriver key_a 0;
                  CClaimInterface key_a 0] |})
  /\ sim_kernel_driver busy_host = true
  /\ sim_kernel_driver
       (world (snd (with_session (read ENDPOINT_COOKED 16)
                      (fresh None busy_host)))) = false
  /\ existsb is_attach
       (trace (snd (with_session (read ENDPOINT_COOKED 16)
                      (fresh None busy_host)))) = false.
Proof. repeat split. Qed.

(** Had [__exit__] been run on the session object the failed open leaves
    behind, it would have reattached the kernel driver. *)
Example exit_after_failed_open_reattaches :
  let left_behind := snd (__enter__ (fresh None busy_host)) in
  sim_kernel_driver (world (snd (__exit__ left_behind))) = true
  /\ existsb is_attach (trace (snd (__exit__ left_behind))) = true.
Proof. split; reflexivity. Qed.

(** Three blocks of one mebibyte asked for, two delivered. *)
Lemma capture_stops_when_third_read_is_empty_witness :
  exists line1 line2,
    script_capture ENDPOINT_COOKED 3 1048576
      (script_env {| responses := [Ok mebibyte; Ok mebibyte; Ok []] ++ [];
                     clock := seconds; ticks := 0; asked := [] |}) =
      (Ok 2097152,
       {| device := after_reads 3 ENDPOINT_COOKED 1048576 []
                      {| responses := [Ok mebibyte; Ok mebibyte; Ok []] ++ [];
                         clock := seconds; ticks := 0; asked := [] |};
          output_file := mebibyte ++ mebibyte;
          stdout := [line1; line2; NoDataReceived 3; Newline] |})
    /\ progress_of 3 line1 1
    /\ progress_of 3 line2 2
    /\ len (mebibyte ++ mebibyte) = 2097152.
Proof.
  exact (capture_stops_when_third_read_is_empty mebibyte mebibyte [] seconds 0%nat
           ENDPOINT_COOKED len_mebibyte len_mebibyte).
Defined.

Lemma five_mebibytes_nonempty :
  Forall (fun d => len d <> 0) (repeat mebibyte 5).
Proof.
  apply Forall_forall. intros d Hd. apply repeat_spec in Hd. subst d.
  rewrite len_mebibyte. lia.
Qed.

Lemma five_mebibytes_full :
  Forall (fun d => len d = 1048576) (repeat mebibyte 5).
Proof.
  apply Forall_forall. intros d Hd. apply repeat_spec in Hd. subst d.
  apply len_mebibyte.
Qed.

(** Five blocks of one mebibyte asked for and delivered: 5242880 bytes are
    returned and written. *)
Lemma capture_completes_all_blocks_witness :
  fst (script_capture ENDPOINT_COOKED 5 1048576
         (script_env {| responses := map Ok (repeat mebibyte 5) ++ [];
                        clock := seconds; ticks := 0; asked := [] |})) =
    Ok 5242880
  /\ len (output_file
            (snd (script_capture ENDPOINT_COOKED 5 1048576
                    (script_env {| responses := map Ok (repeat mebibyte 5) ++ [];
                                   clock := seconds; ticks := 0;
                                   asked := [] |})))) = 5242880.
Proof.
  destruct (capture_completes_all_blocks (repeat mebibyte 5) [] seconds 0%nat
              ENDPOINT_COOKED 1048576 five_mebibytes_nonempty)
    as (lines & Hrun & _ & Hlen & Hfull).
  change (Z.of_nat (length (repeat mebibyte 5))) with 5 in Hrun.
  rewrite Hrun. cbn [fst snd output_file].
  rewrite Hlen, (Hfull five_mebibytes_full). split; reflexivity.
Defined.

(** A read on a session object fresh from [__init__]. *)
Lemma read_unopened_raises_witness :
  read ENDPOINT_COOKED 8 (fresh None streaming_host) =
    (Raise (RuntimeError "Device not open"), fresh None streaming_host).
Proof.
  apply (read_unopened_raises (fresh None streaming_host) ENDPOINT_COOKED 8).
  reflexivity.
Defined.

(** Three bytes delivered, then a bus error: the call fails and the three
    bytes are not returned. *)
Lemma read_other_error_propagates_witness :
  read ENDPOINT_COOKED 5 (opened failing_host) =
    (Raise (USBError (Some 32) "Pipe error"),
     {| self := open_on_key_a;
        world := silent_host;
        trace := [CRead key_a ENDPOINT_COOKED 5 USB_TIMEOUT_MS;
                  CRead key_a ENDPOINT_COOKED 2 USB_TIMEOUT_MS] |}).
Proof.
  refine (read_other_error_propagates (opened failing_host)
            ENDPOINT_COOKED 5 key_a [x01; x02; x03] 2 _
            (USBError (Some 32) "Pipe error") silent_host
            _ (three_bytes_reached [Raise (USBError (Some 32) "Pipe error")])
            _ _ _).
  - reflexivity.
  - reflexivity.
  - reflexivity.
  - reflexivity.
Defined.

(** C4. Closing can raise.  On a host whose backend cannot reattach a
    kernel driver, closing a session that had detached one raises the
    [NotImplementedError] of the reattachment, and [dispose_resources] is
    not reached: [__exit__] guards each cleanup call with
    [except usb.core.USBError] only, where [__enter__] tolerates
    [(usb.core.USBError, NotImplementedError)] on the kernel driver calls. *)
Lemma exit_raises_when_reattach_is_not_implemented :
  __exit__ {| self := open_on_key_a;
              world := {| legacy_driver_bound := false |};
              trace := [] |} =
    (Raise NotImplementedError,
     {| self := open_on_key_a;
        world := {| legacy_driver_bound := false |};
        trace := [CReleaseInterface key_a 0; CAttachKernelDriver key_a 0] |}).
Proof.
  refine (exit_propagates_other_exceptions
            {| self := open_on_key_a;
               world := {| legacy_driver_bound := false |};
               trace := [] |}
            key_a (Ok tt) {| legacy_driver_bound := false |}
            NotImplementedError {| legacy_driver_bound := false |}
            _ _ _ _ _ _).
  - reflexivity.
  - reflexivity.
  - reflexivity.
  - exact I.
  - reflexivity.
  - reflexivity.
Qed.

(** The whole [with] statement on that host, the kernel driver bound at the
    start and the body doing nothing: the open detaches the driver and
    claims the interface, and the statement ends with the
    [NotImplementedError] of the reattachment. *)
Example with_session_on_legacy_host :
  with_session (Py.ret tt) (fresh None {| legacy_driver_bound := true |}) =
    (Raise NotImplementedError,
     {| self := open_on_key_a;
        world := {| legacy_driver_bound := false |};
        trace := [CIsKernelDriverActive key_a 0; CDetachKernelDriver key_a 0;
                  CClaimInterface key_a 0;
                  CReleaseInterface key_a 0; CAttachKernelDriver key_a 0] |}).
Proof. reflexivity. Qed.

(** The whole [with] statement on a host that can reattach: the kernel
    driver is bound again when the statement ends, and the interface is
    released. *)
Example with_session_restores_kernel_driver :
  let host := {| sim_devices := [(key_a, Ok (Some "A1"%string))];
                 sim_kernel_driver := true;
                 sim_held_elsewhere := false;
                 sim_claimed := false;
                 sim_unplugged := false;
                 sim_packets := [Ok [x01; x02]] |} in
  with_session (read ENDPOINT_COOKED 2) (fresh None host) =
    (Ok (Some (Some [x01; x02])),
     {| self := open_on_key_a;
        world := sim_set_packets [] host;
        trace := [CIsKernelDriverActive key_a 0; CDetachKernelDriver key_a 0;
                  CClaimInterface key_a 0;
                  CRead key_a ENDPOINT_COOKED 2 USB_TIMEOUT_MS;
                  CReleaseInterface key_a 0; CAttachKernelDriver key_a 0;
                  CDisposeResources key_a] |}).
Proof. reflexivity. Qed.

(** Five blocks asked for; two are delivered and the third read fails. *)
Lemma capture_stops_at_failed_read_witness :
  exists lines,
    script_capture ENDPOINT_COOKED 5 2
      (script_env {| responses := map Ok [[x01; x02]; [x03]]
                                  ++ Raise (USBError (Some 32) "Pipe error") :: [];
                     clock := seconds; ticks := 0; asked := [] |}) =
      (Ok (total_len [[x01; x02]; [x03]]),
       {| device := {| responses := []; clock := seconds;
                       ticks := S (2 * length [[x01; x02]; [x03]] + 0);
                       asked := repeat (ENDPOINT_COOKED, 2)
                                  (length [[x01; x02]; [x03]])
                                ++ [(ENDPOINT_COOKED, 2)] |};
          output_file := concat [[x01; x02]; [x03]];
          stdout := lines
                    ++ [ReadFailed (Z.of_nat (length [[x01; x02]; [x03]]) + 1)
                          (USBError (Some 32) "Pipe error");
                        Newline] |})
    /\ Forall2 (progress_of 5) lines
         (block_numbers 0 (length [[x01; x02]; [x03]])).
Proof.
  refine (capture_stops_at_failed_read [[x01; x02]; [x03]]
            (USBError (Some 32) "Pipe error") [] seconds 0%nat
            ENDPOINT_COOKED 5 2 _ _ _).
  - repeat constructor; discriminate.
  - reflexivity.
  - reflexivity.
Defined.

(** Five blocks asked for; two are delivered and the third read is empty. *)
Lemma capture_stops_at_empty_read_witness :
  exists lines,
    script_capture ENDPOINT_COOKED 5 2
      (script_env {| responses := map Ok [[x01; x02]; [x03]] ++ Ok [] :: [];
                     clock := seconds; ticks := 0; asked := [] |}) =
      (Ok (total_len [[x01; x02]; [x03]]),
       {| device := after_reads (S (length [[x01; x02]; [x03]]))
                      ENDPOINT_COOKED 2 []
                      {| responses := map Ok [[x01; x02]; [x03]] ++ Ok [] :: [];
                         clock := seconds; ticks := 0; asked := [] |};
          output_file := concat [[x01; x02]; [x03]];
          stdout := lines
                    ++ [NoDataReceived (Z.of_nat (length [[x01; x02]; [x03]]) + 1);
                        Newline] |})
    /\ Forall2 (progress_of 5) lines
         (block_numbers 0 (length [[x01; x02]; [x03]])).
Proof.
  refine (capture_stops_at_empty_read [[x01; x02]; [x03]] [] seconds 0%nat
            ENDPOINT_COOKED 5 2 _ _).
  - repeat constructor; discriminate.
  - reflexivity.
Defined.

(** * The rest of the code *)

(** ** Device discovery *)

Section DiscoveryFacts.

Context {W : Type} `{Backend W}.

(** One descriptor read under [except (usb.core.USBError, ValueError)]. *)
Lemma guarded_descriptor_read dev (s : state W) :
  Py.try_except
    (invoke (CGetString dev (iSerialNumber dev))
       (get_string dev (iSerialNumber dev)))
    is_USBError_or_ValueError (fun _ => Py.ret None) s =
  (match answer_at (world s) dev with
   | Ok dev_serial => Ok dev_serial
   | Raise e => if is_USBError_or_ValueError e then Ok None else Raise e
   end,
   {| self := self s;
      world := snd (get_string dev (iSerialNumber dev) (world s));
      trace := trace s ++ [get_string_call dev] |}).
Proof.
  unfold Py.try_except, invoke, answer_at, get_string_call.
  destruct (get_string dev (iSerialNumber dev) (world s)) as [[v | e] w'];
    simpl; [reflexivity|].
  destruct (is_USBError_or_ValueError e); reflexivity.
Qed.

(** The listing loop, when no descriptor read raises past the handler. *)
Lemma describe_devices_all (Hfail : descriptor_fails_with_USBError_or_ValueError) :
  forall devs devices (s : state W),
  exists infos s',
    describe_devices devs devices s = (Ok (devices ++ infos), s')
    /\ map info_location infos = map location devs
    /\ self s' = self s
    /\ trace s' = trace s ++ map get_string_call devs.
Proof.
  induction devs as [|dev rest IH]; intros devices s.
  - exists [], s. simpl. unfold Py.ret. rewrite !app_nil_r. auto.
  - simpl. unfold Py.bind at 1. rewrite guarded_descriptor_read.
    set (s1 := {| self := self s;
                  world := snd (get_string dev (iSerialNumber dev) (world s));
                  trace := trace s ++ [get_string_call dev] |}).
    assert (exists dev_serial,
               match answer_at (world s) dev with
               | Ok v => Ok v
               | Raise e => if is_USBError_or_ValueError e then Ok None else Raise e
               end = Ok dev_serial) as [dev_serial ->].
    { unfold answer_at.
      destruct (get_string dev (iSerialNumber dev) (world s)) as [[v | e] w'] eqn:Hread;
        simpl; [eexists; reflexivity|].
      rewrite (Hfail _ _ _ _ _ Hread). eexists; reflexivity. }
    destruct (IH (devices ++ [{| info_bus := bus dev; info_address := address dev;
                                 info_serial := dev_serial |}]) s1)
      as (infos & s' & Hrun & Hloc & Hself & Htrace).
    exists ({| info_bus := bus dev; info_address := address dev;
               info_serial := dev_serial |} :: infos), s'.
    rewrite Hrun, <- app_assoc. simpl.
    rewrite Hloc, Hself, Htrace. subst s1. simpl.
    rewrite <- app_assoc. auto.
Qed.

(** X6. [find_chaoskey_devices] makes one serial descriptor read for each
    device the enumeration yields, in order, and nothing else; a device
    whose descriptor cannot be read is listed all the same.  When the
    enumeration is exhausted the function returns one entry per device, in
    enumeration order, each with the bus number and the address of its
    device.  When the enumeration raises, for want of a backend or on a
    failure of the backend, that exception leaves the function, which
    returns no list.  The session object is left alone.  The listing of the
    attached devices is the case of an enumeration that completes. *)
Theorem find_chaoskey_devices_lists_every_device
    (Hfail : descriptor_fails_with_USBError_or_ValueError)
    (found : enumeration) (s : state W) :
  (exists infos s',
      find_chaoskey_devices_over found s =
        (match failure found with
         | None => Ok infos
         | Some e => Raise e
         end, s')
      /\ map info_location infos = map location (yielded found)
      /\ self s' = self s
      /\ trace s' = trace s ++ map get_string_call (yielded found))
  /\ find_chaoskey_devices s =
       find_chaoskey_devices_over (complete (candidates (world s))) s.
Proof.
  split.
  - destruct (describe_devices_all Hfail (yielded found) [] s)
      as (infos & s' & Hrun & Hrest).
    exists infos, s'. split; [| exact Hrest].
    unfold find_chaoskey_devices_over, Py.bind. simpl in Hrun. rewrite Hrun.
    destruct (failure found); reflexivity.
  - unfold find_chaoskey_devices, find_chaoskey_devices_over, Py.bind,
      usb_core_find_all, complete. cbn [yielded failure].
    fold (candidates (world s)).
    destruct (describe_devices (candidates (world s)) [] s) as [[infos | e] s'];
      reflexivity.
Qed.

(** When descriptor reads are queries, the listing is the candidates seen
    through [info_at], and a listing that returned met no failure its
    handler does not name. *)
Lemma describe_devices_query (Hquery : descriptor_read_is_a_query) :
  forall devs devices (s : state W) infos s',
    describe_devices devs devices s = (Ok infos, s') ->
    infos = devices ++ map (info_at (world s)) devs
    /\ world s' = world s
    /\ Forall (fun dev => match answer_at (world s) dev with
                          | Ok _ => True
                          | Raise e => is_USBError_or_ValueError e = true
                          end) devs.
Proof.
  induction devs as [|dev rest IH]; intros devices s infos s' Hrun.
  - simpl in Hrun. inversion Hrun; subst. rewrite app_nil_r. auto.
  - simpl in Hrun. unfold Py.bind at 1 in Hrun.
    rewrite guarded_descriptor_read in Hrun.
    rewrite (Hquery dev (iSerialNumber dev) (world s)) in Hrun.
    destruct (answer_at (world s) dev) as [v | e] eqn:Hanswer.
    + apply IH in Hrun. simpl in Hrun. destruct Hrun as (-> & Hworld & Hall).
      rewrite <- app_assoc. simpl. unfold info_at at 2. rewrite Hanswer.
      split; [reflexivity | split; [exact Hworld|]].
      constructor; [rewrite Hanswer; exact I | exact Hall].
    + destruct (is_USBError_or_ValueError e) eqn:Hclass; [| discriminate].
      apply IH in Hrun. simpl in Hrun. destruct Hrun as (-> & Hworld & Hall).
      rewrite <- app_assoc. simpl. unfold info_at at 2. rewrite Hanswer.
      split; [reflexivity | split; [exact Hworld|]].
      constructor; [rewrite Hanswer; exact Hclass | exact Hall].
Qed.

Lemma find_chaoskey_devices_query (Hquery : descriptor_read_is_a_query)
    (s : state W) infos s' :
  find_chaoskey_devices s = (Ok infos, s') ->
  infos = map (info_at (world s)) (candidates (world s))
  /\ world s' = world s
  /\ Forall (fun dev => match answer_at (world s) dev with
                        | Ok _ => True
                        | Raise e => is_USBError_or_ValueError e = true
                        end) (candidates (world s)).
Proof.
  intros Hrun. unfold find_chaoskey_devices, Py.bind, usb_core_find_all in Hrun.
  apply (describe_devices_query Hquery) in Hrun. exact Hrun.
Qed.

(** Candidates that the listing shows with another serial are candidates
    the scan of [__enter__] passes over. *)
Lemma scan_misses_of_listing (Hquery : descriptor_read_is_a_query)
    (wanted : string) (w : W) :
  forall devs,
    Forall (fun dev => match answer_at w dev with
                       | Ok _ => True
                       | Raise e => is_USBError_or_ValueError e = true
                       end) devs ->
    Forall (fun info => info_serial info <> Some wanted) (map (info_at w) devs) ->
    scan_misses wanted devs w w.
Proof.
  induction devs as [|dev rest IH]; intros Hcaught Hother.
  - constructor.
  - inversion Hcaught as [|? ? Hc Hcs]; inversion Hother as [|? ? Ho Hos]; subst.
    apply misses_cons with (r := answer_at w dev) (w1 := w).
    + unfold answer_at. pose proof (Hquery dev (iSerialNumber dev) w) as Hsame.
      destruct (get_string dev (iSerialNumber dev) w) as [r w']. simpl in *.
      subst w'. reflexivity.
    + unfold info_at in Ho. simpl in Ho.
      destruct (answer_at w dev) as [v | e]; simpl in *; assumption.
    + apply IH; assumption.
Qed.

(** X7. What [main] lists is what [main] opens.  When reading a serial
    descriptor leaves the USB subsystem as it was, a session opened with a
    serial filter after [find_chaoskey_devices] has returned selects the
    device of the first entry listed with that serial; and when no entry
    carries that serial the open fails with the not-found error. *)
Theorem open_selects_first_listed_serial
    (Hquery : descriptor_read_is_a_query)
    (s : state W) infos s1 (wanted : string) :
  find_chaoskey_devices s = (Ok infos, s1) ->
  wanted <> ""%string ->
  (forall before info after,
      infos = before ++ info :: after ->
      Forall (fun other => info_serial other <> Some wanted) before ->
      info_serial info = Some wanted ->
      exists dev s2,
        nth_error (candidates (world s)) (length before) = Some dev
        /\ location dev = info_location info
        /\ find_device (session_after (Some wanted) s1) = (Ok tt, s2)
        /\ _device (self s2) = Some dev)
  /\ (Forall (fun other => info_serial other <> Some wanted) infos ->
      fst (__enter__ (session_after (Some wanted) s1)) =
        Raise (RuntimeError "No ChaosKey device found")).
Proof.
  intros Hlist Hwanted.
  destruct (find_chaoskey_devices_query Hquery _ _ _ Hlist)
    as (Hinfos & Hworld & Hcaught).
  assert (find_device (session_after (Some wanted) s1) =
          scan_devices (candidates (world s)) (session_after (Some wanted) s1))
    as Hfind.
  { rewrite (find_device_filtered _ wanted) by (auto || reflexivity).
    simpl. rewrite Hworld. reflexivity. }
  split.
  - intros before info after Hsplit Hbefore Hinfo. rewrite Hinfos in Hsplit.
    apply map_eq_app in Hsplit.
    destruct Hsplit as (cb & crest & Hcands & Hcb & Hcrest).
    apply map_eq_cons in Hcrest.
    destruct Hcrest as (dev & ca & -> & Hdev & Hca).
    rewrite Hcands in Hcaught. apply Forall_app in Hcaught.
    destruct Hcaught as [Hcaught_b Hcaught_r].
    assert (get_string dev (iSerialNumber dev) (world s) =
            (Ok (Some wanted), world s)) as Hhit.
    { pose proof (Hquery dev (iSerialNumber dev) (world s)) as Hsame.
      rewrite <- Hdev in Hinfo. unfold info_at, answer_at in Hinfo. simpl in Hinfo.
      destruct (get_string dev (iSerialNumber dev) (world s)) as [[v | e] w'];
        simpl in *; subst; [reflexivity | discriminate]. }
    exists dev. eexists. split; [| split; [| split]].
    + rewrite Hcands, <- Hcb, length_map, nth_error_app2, Nat.sub_diag by lia.
      reflexivity.
    + rewrite <- Hdev. reflexivity.
    + rewrite Hfind, Hcands.
      apply (scan_devices_hit wanted cb (world s) (world s)).
      * apply (scan_misses_of_listing Hquery); [exact Hcaught_b|].
        rewrite Hcb. exact Hbefore.
      * simpl. exact Hworld.
      * reflexivity.
      * exact Hhit.
    + reflexivity.
  - intros Hnone. rewrite Hinfos in Hnone.
    rewrite (scan_devices_misses wanted (candidates (world s)) (world s) (world s))
      in Hfind.
    + rewrite (enter_not_found _ _ Hfind); reflexivity.
    + apply (scan_misses_of_listing Hquery); assumption.
    + simpl. exact Hworld.
    + reflexivity.
Qed.

(** X8. Without a serial filter, the device a session opens after the
    listing is the device of the first entry listed, the one [main]
    announces, and it is the device [get_first_chaoskey] returns; when
    nothing is listed there is no such device and the open fails with the
    not-found error. *)
Theorem open_selects_first_listed
    (Hquery : descriptor_read_is_a_query) (s : state W) infos s1 :
  find_chaoskey_devices s = (Ok infos, s1) ->
  let first := head (candidates (world s)) in
  option_map location first = option_map info_location (head infos)
  /\ get_first_chaoskey s1 = (Ok first, s1)
  /\ find_device (session_after None s1) =
       (Ok tt, {| self := set_device first (__init__ None);
                  world := world s1; trace := trace s1 |})
  /\ (infos = [] ->
      fst (__enter__ (session_after None s1)) =
        Raise (RuntimeError "No ChaosKey device found")).
Proof.
  intros Hlist first.
  destruct (find_chaoskey_devices_query Hquery _ _ _ Hlist)
    as (Hinfos & Hworld & _).
  assert (head (candidates (world s1)) = first) as Hfirst
    by (rewrite Hworld; reflexivity).
  split; [| split; [| split]].
  - rewrite Hinfos. unfold first.
    destruct (candidates (world s)); reflexivity.
  - unfold get_first_chaoskey, usb_core_find. fold (candidates (world s1)).
    rewrite Hfirst. reflexivity.
  - rewrite find_device_unfiltered by reflexivity. simpl. rewrite Hfirst.
    reflexivity.
  - intros Hnone.
    assert (first = None) as Hno.
    { unfold first. rewrite Hinfos in Hnone.
      destruct (candidates (world s)); [reflexivity | discriminate]. }
    pose proof (find_device_unfiltered (session_after None s1) eq_refl) as Hfind.
    simpl in Hfind. rewrite Hfirst, Hno in Hfind.
    rewrite (enter_not_found _ _ Hfind); reflexivity.
Qed.

(** X9. The [serial] property never raises when descriptor reads fail as
    the library documents: it returns the serial read, or [None] when the
    read failed; on a session that is not open it returns [None] without
    calling the library; in no case does it change the session object. *)
Theorem serial_never_raises
    (Hfail : descriptor_fails_with_USBError_or_ValueError) (s : state W) :
  exists value s',
    serial s = (Ok value, s')
    /\ self s' = self s
    /\ (_device (self s) = None -> value = None /\ s' = s)
    /\ (forall dev, _device (self s) = Some dev ->
        value = shown_serial (answer_at (world s) dev)
        /\ trace s' = trace s ++ [get_string_call dev]).
Proof.
  unfold serial, Py.bind, get_self.
  destruct (_device (self s)) as [dev|] eqn:Hdev.
  - rewrite guarded_descriptor_read.
    destruct (answer_at (world s) dev) as [v | e] eqn:Hanswer.
    + eexists; eexists. split; [reflexivity|]. simpl.
      split; [reflexivity | split; [discriminate|]].
      intros dev' Hdev'. inversion Hdev'; subst dev'. rewrite Hanswer. auto.
    + assert (is_USBError_or_ValueError e = true) as Hclass.
      { unfold answer_at in Hanswer.
        destruct (get_string dev (iSerialNumber dev) (world s)) as [r w'] eqn:Hread.
        simpl in Hanswer. subst r. exact (Hfail _ _ _ _ _ Hread). }
      rewrite Hclass.
      eexists; eexists. split; [reflexivity|]. simpl.
      split; [reflexivity | split; [discriminate|]].
      intros dev' Hdev'. inversion Hdev'; subst dev'. rewrite Hanswer. auto.
  - exists None, s. unfold Py.ret.
    split; [reflexivity | split; [reflexivity | split; [auto|]]].
    intros dev Hdev'. discriminate.
Qed.

End DiscoveryFacts.

(** The hub reads descriptors as the two hypotheses above require. *)
Lemma hub_descriptor_fails_with_USBError_or_ValueError :
  @descriptor_fails_with_USBError_or_ValueError hub hub_backend.
Proof.
  intros dev index w e w' Hread. simpl in Hread. unfold hub_get_string in Hread.
  destruct (find _ (hub_keys w)) as [[d [serial | |]]|];
    inversion Hread; reflexivity.
Qed.

Lemma hub_descriptor_read_is_a_query :
  @descriptor_read_is_a_query hub hub_backend.
Proof.
  intros dev index w. simpl. unfold hub_get_string.
  destruct (find _ (hub_keys w)) as [[d [serial | |]]|]; reflexivity.
Qed.

Lemma find_chaoskey_devices_lists_every_device_witness :
  (exists infos s',
      find_chaoskey_devices_over (complete (candidates bench)) (fresh None bench) =
        (Ok infos, s')
      /\ map info_location infos = map location (candidates bench)
      /\ self s' = self (fresh None bench)
      /\ trace s' = trace (fresh None bench)
                    ++ map get_string_call (candidates bench))
  /\ (exists infos s',
        find_chaoskey_devices_over
          {| yielded := [key_a; key_b]; failure := Some ENODEV |}
          (fresh None bench) = (Raise ENODEV, s')
        /\ map info_location infos = map location [key_a; key_b]
        /\ self s' = self (fresh None bench)
        /\ trace s' = trace (fresh None bench)
                      ++ map get_string_call [key_a; key_b])
  /\ find_chaoskey_devices (fresh None bench) =
       find_chaoskey_devices_over (complete (candidates bench)) (fresh None bench).
Proof.
  split; [| split].
  - exact (proj1 (find_chaoskey_devices_lists_every_device
                    hub_descriptor_fails_with_USBError_or_ValueError
                    (complete (candidates bench)) (fresh None bench))).
  - exact (proj1 (find_chaoskey_devices_lists_every_device
                    hub_descriptor_fails_with_USBError_or_ValueError
                    {| yielded := [key_a; key_b]; failure := Some ENODEV |}
                    (fresh None bench))).
  - exact (proj2 (find_chaoskey_devices_lists_every_device
                    hub_descriptor_fails_with_USBError_or_ValueError
                    (complete (candidates bench)) (fresh None bench))).
Defined.

Lemma open_selects_first_listed_serial_witness :
  (forall before info after,
      bench_listing = before ++ info :: after ->
      Forall (fun other => info_serial other <> Some "B2"%string) before ->
      info_serial info = Some "B2"%string ->
      exists dev s2,
        nth_error (candidates (world (fresh None bench))) (length before) = Some dev
        /\ location dev = info_location info
        /\ find_device (session_after (Some "B2"%string) bench_listed) = (Ok tt, s2)
        /\ _device (self s2) = Some dev)
  /\ (Forall (fun other => info_serial other <> Some "B2"%string) bench_listing ->
      fst (__enter__ (session_after (Some "B2"%string) bench_listed)) =
        Raise (RuntimeError "No ChaosKey device found")).
Proof.
  refine (open_selects_first_listed_serial hub_descriptor_read_is_a_query
            (fresh None bench) bench_listing bench_listed "B2" _ _).
  - reflexivity.
  - discriminate.
Defined.

Lemma open_selects_first_listed_witness :
  option_map location (head (candidates (world (fresh None bench)))) =
    option_map info_location (head bench_listing)
  /\ get_first_chaoskey bench_listed =
       (Ok (head (candidates (world (fresh None bench)))), bench_listed)
  /\ find_device (session_after None bench_listed) =
       (Ok tt, {| self := set_device (head (candidates (world (fresh None bench))))
                            (__init__ None);
                  world := world bench_listed; trace := trace bench_listed |})
  /\ (bench_listing = [] ->
      fst (__enter__ (session_after None bench_listed)) =
        Raise (RuntimeError "No ChaosKey device found")).
Proof.
  refine (open_selects_first_listed hub_descriptor_read_is_a_query
            (fresh None bench) bench_listing bench_listed _).
  reflexivity.
Defined.

Lemma serial_never_raises_witness :
  exists value s',
    serial opened_on_bench = (Ok value, s')
    /\ self s' = self opened_on_bench
    /\ (_device (self opened_on_bench) = None ->
        value = None /\ s' = opened_on_bench)
    /\ (forall dev, _device (self opened_on_bench) = Some dev ->
        value = shown_serial (answer_at (world opened_on_bench) dev)
        /\ trace s' = trace opened_on_bench ++ [get_string_call dev]).
Proof.
  exact (serial_never_raises hub_descriptor_fails_with_USBError_or_ValueError
           opened_on_bench).
Defined.

(** ** The life of a session *)

Section LifecycleFacts.

Context {W : Type} `{Backend W}.

(** X10. Once [__enter__] has returned, the [with] statement always closes
    the session: whether the body returns or raises, and whatever it raises,
    [__exit__] makes its cleanup calls for the session object the body
    leaves, and the outcome of the statement is the outcome of the body, an
    exception of the body being raised again after the cleanup. *)
Theorem with_session_always_closes {A} (Hfail : cleanup_fails_with_USBError)
    (body : Py.t (state W) A) (s s1 s2 : state W) (r : result A) :
  __enter__ s = (Ok tt, s1) ->
  body s1 = (r, s2) ->
  exists w3,
    with_session body s =
      (match r with Ok a => Ok (Some a) | Raise e => Raise e end,
       {| self := self s2; world := w3;
          trace := trace s2 ++ cleanup_calls (self s2) |}).
Proof.
  intros Henter Hbody.
  destruct (exit_runs_cleanup s2 Hfail) as [w3 Hexit].
  exists w3. unfold with_session. rewrite Henter, Hbody.
  destruct r; rewrite Hexit; reflexivity.
Qed.

(** The scan of [__enter__] calls nothing but descriptor reads of the
    devices it is given, and selects one of them or leaves the session
    object alone. *)
Lemma scan_devices_selects :
  forall devs (s s' : state W),
    scan_devices devs s = (Ok tt, s') ->
    exists reads,
      trace s' = trace s ++ reads
      /\ Forall (fun c => exists dev, In dev devs /\ c = get_string_call dev) reads
      /\ (self s' = self s
          \/ exists dev, In dev devs /\ self s' = set_device (Some dev) (self s)).
Proof.
  induction devs as [|dev rest IH]; intros s s' Hscan.
  - simpl in Hscan. inversion Hscan; subst. exists []. rewrite app_nil_r.
    split; [reflexivity | split; [constructor | left; reflexivity]].
  - simpl in Hscan. unfold Py.bind at 1 in Hscan.
    unfold Py.try_except, Py.bind, invoke, get_self, set_self, Py.modify, Py.ret
      in Hscan.
    destruct (get_string dev (iSerialNumber dev) (world s)) as [[v | e] w1].
    + simpl in Hscan. destruct (serial_eqb v (_serial (self s))).
      * simpl in Hscan. inversion Hscan; subst. simpl.
        exists [get_string_call dev]. split; [reflexivity | split].
        -- constructor; [| constructor]. exists dev. simpl. auto.
        -- right. exists dev. simpl. auto.
      * simpl in Hscan. apply IH in Hscan. simpl in Hscan.
        destruct Hscan as (reads & Htrace & Hreads & Hself).
        exists (get_string_call dev :: reads). split; [| split].
        -- rewrite Htrace, <- app_assoc. reflexivity.
        -- constructor.
           ++ exists dev. simpl. auto.
           ++ eapply Forall_impl; [| exact Hreads].
              intros c (d & Hin & ->). exists d. simpl. auto.
        -- destruct Hself as [Hsame | (d & Hin & Hsel)].
           ++ left. exact Hsame.
           ++ right. exists d. simpl. auto.
    + simpl in Hscan. destruct (is_USBError_or_ValueError e); [| discriminate].
      simpl in Hscan. apply IH in Hscan. simpl in Hscan.
      destruct Hscan as (reads & Htrace & Hreads & Hself).
      exists (get_string_call dev :: reads). split; [| split].
      * rewrite Htrace, <- app_assoc. reflexivity.
      * constructor.
        -- exists dev. simpl. auto.
        -- eapply Forall_impl; [| exact Hreads].
           intros c (d & Hin & ->). exists d. simpl. auto.
      * destruct Hself as [Hsame | (d & Hin & Hsel)].
        -- left. exact Hsame.
        -- right. exists d. simpl. auto.
Qed.

(** What [find_device] leaves when it returns. *)
Lemma find_device_selects (s s' : state W) :
  find_device s = (Ok tt, s') ->
  exists reads,
    trace s' = trace s ++ reads
    /\ Forall (fun c => exists dev, In dev (candidates (world s))
                                    /\ c = get_string_call dev) reads
    /\ (truthy_str (_serial (self s)) = false -> reads = [])
    /\ (self s' = self s
        \/ _device (self s') = None /\ self s' = set_device None (self s)
        \/ exists dev, In dev (candidates (world s))
                       /\ self s' = set_device (Some dev) (self s)).
Proof.
  intros Hfind. destruct (truthy_str (_serial (self s))) eqn:Hfilter.
  - unfold find_device, Py.bind, get_self, usb_core_find_all in Hfind.
    rewrite Hfilter in Hfind. apply scan_devices_selects in Hfind.
    destruct Hfind as (reads & Htrace & Hreads & Hself).
    exists reads. split; [exact Htrace | split; [exact Hreads | split]].
    + discriminate.
    + destruct Hself as [Hsame | Hsel]; [left; exact Hsame | right; right; exact Hsel].
  - rewrite (find_device_unfiltered _ Hfilter) in Hfind.
    inversion Hfind; subst. simpl. exists []. rewrite app_nil_r.
    split; [reflexivity | split; [constructor | split; [reflexivity|]]].
    right. unfold candidates.
    destruct (filter _ (enumerate (world s))) as [|dev rest]; simpl.
    + left. auto.
    + right. exists dev. simpl. auto.
Qed.

(** What [detach_and_claim] has done when it returns. *)
Lemma detach_and_claim_returns dev (s s1 : state W) :
  detach_and_claim dev s = (Ok tt, s1) ->
  let i := _interface (self s) in
  exists queries,
    trace s1 = trace s ++ queries ++ [CClaimInterface dev i]
    /\ (queries = [CIsKernelDriverActive dev i] /\ self s1 = self s
        \/ queries = [CIsKernelDriverActive dev i; CDetachKernelDriver dev i]
           /\ (self s1 = self s
               \/ self s1 = set_kernel_was_active true (self s))).
Proof.
  intros Hrun i. subst i.
  cbv [detach_and_claim detach_if_active Py.bind get_self Py.try_except invoke
         set_self Py.modify Py.ret] in Hrun. simpl in Hrun.
  destruct (is_kernel_driver_active dev (_interface (self s)) (world s))
    as [[[|] | e] w1]; simpl in Hrun.
  - destruct (detach_kernel_driver dev (_interface (self s)) w1)
      as [[[] | e] w2]; simpl in Hrun.
    + destruct (claim_interface dev (_interface (self s)) w2) as [[[] | e] w3];
        inversion Hrun; subst; simpl.
      exists [CIsKernelDriverActive dev (_interface (self s));
              CDetachKernelDriver dev (_interface (self s))].
      split; [rewrite <- !app_assoc; reflexivity | right; auto].
    + destruct (is_USBError_or_NotImplementedError e); [| discriminate].
      simpl in Hrun.
      destruct (claim_interface dev (_interface (self s)) w2) as [[[] | e'] w3];
        inversion Hrun; subst; simpl.
      exists [CIsKernelDriverActive dev (_interface (self s));
              CDetachKernelDriver dev (_interface (self s))].
      split; [rewrite <- !app_assoc; reflexivity | right; auto].
  - destruct (claim_interface dev (_interface (self s)) w1) as [[[] | e] w3];
      inversion Hrun; subst; simpl.
    exists [CIsKernelDriverActive dev (_interface (self s))].
    split; [rewrite <- !app_assoc; reflexivity | left; auto].
  - destruct (is_USBError_or_NotImplementedError e); [| discriminate].
    simpl in Hrun.
    destruct (claim_interface dev (_interface (self s)) w1) as [[[] | e'] w3];
      inversion Hrun; subst; simpl.
    exists [CIsKernelDriverActive dev (_interface (self s))].
    split; [rewrite <- !app_assoc; reflexivity | left; auto].
Qed.

Lemma candidates_are_chaoskeys (w : W) dev :
  In dev (candidates w) ->
  idVendor dev = CHAOSKEY_VID /\ idProduct dev = CHAOSKEY_PID.
Proof.
  intros Hin. apply filter_In in Hin. destruct Hin as [_ Hids].
  unfold matches_ids in Hids. apply andb_prop in Hids.
  destruct Hids as [Hvid Hpid]. split; apply Z.eqb_eq; assumption.
Qed.

(** X11. A session that has opened holds one of the attached devices with
    the ChaosKey vendor and product identifiers.  The library calls of the
    open are: serial descriptor reads of such devices (none when no filter
    is given), the kernel driver query on interface 0, possibly the
    detachment, and last the claim of interface 0 of the device held.  A
    detachment is noted for the close only if the open called for one. *)
Theorem enter_opens_a_chaoskey (serial : option string) (w : W) (s1 : state W) :
  __enter__ (fresh serial w) = (Ok tt, s1) ->
  exists dev reads queries,
    In dev (candidates w)
    /\ idVendor dev = CHAOSKEY_VID /\ idProduct dev = CHAOSKEY_PID
    /\ _device (self s1) = Some dev
    /\ _serial (self s1) = serial
    /\ _interface (self s1) = 0
    /\ trace s1 = reads ++ queries ++ [CClaimInterface dev 0]
    /\ Forall (fun c => exists d, In d (candidates w) /\ c = get_string_call d) reads
    /\ (truthy_str serial = false -> reads = [])
    /\ (queries = [CIsKernelDriverActive dev 0]
        \/ queries = [CIsKernelDriverActive dev 0; CDetachKernelDriver dev 0])
    /\ (_kernel_was_active (self s1) = true -> existsb is_detach queries = true).
Proof.
  intros Henter. unfold __enter__ in Henter. unfold Py.bind at 1 in Henter.
  destruct (find_device (fresh serial w)) as [[[] | e] s0] eqn:Hfind;
    [| discriminate].
  destruct (find_device_selects _ _ Hfind) as (reads & Htrace & Hreads & Hnone & Hself).
  simpl in Htrace, Hreads, Hnone, Hself.
  unfold Py.bind at 1 in Henter. unfold get_self at 1 in Henter.
  assert (exists dev, In dev (candidates w)
                      /\ self s0 = set_device (Some dev) (__init__ serial))
    as (dev & Hin & Hself0).
  { destruct Hself as [Hsame | [[Hno _] | Hsel]]; [| | exact Hsel].
    - rewrite Hsame in Henter. simpl in Henter. discriminate.
    - rewrite Hno in Henter. discriminate. }
  rewrite Hself0 in Henter. simpl in Henter.
  apply detach_and_claim_returns in Henter. rewrite Hself0 in Henter.
  simpl in Henter. destruct Henter as (queries & Htrace1 & Hcases).
  destruct (candidates_are_chaoskeys w dev Hin) as [Hvid Hpid].
  exists dev, reads, queries.
  assert (trace s1 = reads ++ queries ++ [CClaimInterface dev 0]) as Htr
    by (rewrite Htrace1, Htrace; reflexivity).
  destruct Hcases as [[Hq Hs1] | [Hq [Hs1 | Hs1]]]; rewrite Hs1; simpl;
    repeat split; auto; try discriminate; rewrite Hq; reflexivity.
Qed.

(** X12. Opening tolerates a host that cannot query or detach the kernel
    driver.  When the query, or the detachment after a positive query, fails
    with [usb.core.USBError] or [NotImplementedError], [__enter__] goes on to
    claim the interface and notes no detachment.  When the query fails with
    an exception of another class, [__enter__] raises it and claims
    nothing. *)
Theorem enter_tolerates_missing_detach_support
    (s0 s : state W) dev (e : exn) (w1 : W) :
  find_device s0 = (Ok tt, s) ->
  _device (self s) = Some dev ->
  let i := _interface (self s) in
  let claim (calls : list call) :=
    invoke (CClaimInterface dev i) (claim_interface dev i)
      {| self := self s; world := w1; trace := trace s ++ calls |} in
  (is_USBError_or_NotImplementedError e = true ->
   (is_kernel_driver_active dev i (world s) = (Raise e, w1) ->
    __enter__ s0 = claim [CIsKernelDriverActive dev i])
   /\ (forall w0,
        is_kernel_driver_active dev i (world s) = (Ok true, w0) ->
        detach_kernel_driver dev i w0 = (Raise e, w1) ->
        __enter__ s0 =
          claim [CIsKernelDriverActive dev i; CDetachKernelDriver dev i]))
  /\ (is_USBError_or_NotImplementedError e = false ->
      is_kernel_driver_active dev i (world s) = (Raise e, w1) ->
      __enter__ s0 =
        (Raise e, {| self := self s; world := w1;
                     trace := trace s ++ [CIsKernelDriverActive dev i] |})).
Proof.
  intros Hfind Hdev i claim. subst i claim.
  rewrite (enter_selected _ _ _ Hfind Hdev).
  split; [intros Hclass; split |].
  - intros Hquery.
    cbv [detach_and_claim detach_if_active Py.bind get_self Py.try_except invoke
           set_self Py.modify Py.ret]. simpl.
    rewrite Hquery. simpl. rewrite Hclass. simpl. reflexivity.
  - intros w0 Hquery Hdetach.
    cbv [detach_and_claim detach_if_active Py.bind get_self Py.try_except invoke
           set_self Py.modify Py.ret]. simpl.
    rewrite Hquery. simpl. rewrite Hdetach. simpl. rewrite Hclass. simpl.
    rewrite <- !app_assoc. reflexivity.
  - intros Hclass Hquery.
    cbv [detach_and_claim detach_if_active Py.bind get_self Py.try_except invoke
           set_self Py.modify Py.ret]. simpl.
    rewrite Hquery. simpl. rewrite Hclass. reflexivity.
Qed.

End LifecycleFacts.

(** ** The requests of the chunked read *)

Section RequestFacts.

Context {W : Type} `{Backend W}.

Lemma chunk_request_in_bounds dev endpoint size remaining :
  remaining > 0 -> remaining <= size ->
  chunk_request_of dev endpoint size (chunk_request dev endpoint remaining).
Proof.
  intros Hpos Hle. exists (Z.min remaining BULK_TRANSFER_SIZE).
  unfold chunk_request, BULK_TRANSFER_SIZE. repeat split; lia.
Qed.

(** The loop asks only for chunks within bounds, makes at most one request
    per unit of fuel and leaves the session object alone. *)
Lemma while_loop_requests dev endpoint size :
  forall fuel buffer remaining (s : state W) r s',
    remaining <= size ->
    while_loop fuel dev endpoint buffer remaining s = (r, s') ->
    exists calls,
      trace s' = trace s ++ calls
      /\ self s' = self s
      /\ Forall (chunk_request_of dev endpoint size) calls
      /\ (length calls <= fuel)%nat.
Proof.
  induction fuel as [|fuel IH]; intros buffer remaining s r s' Hle Hrun.
  - simpl in Hrun. destruct (remaining >? 0); inversion Hrun; subst;
      exists []; rewrite app_nil_r; repeat split; auto.
  - simpl in Hrun. destruct (remaining >? 0) eqn:Hpos.
    2: { inversion Hrun; subst. exists []. rewrite app_nil_r.
         repeat split; auto. simpl. lia. }
    apply Z.gtb_lt in Hpos.
    pose proof (chunk_request_in_bounds dev endpoint size remaining
                  ltac:(lia) Hle) as Hreq.
    unfold Py.bind at 1 in Hrun.
    destruct (device_read dev endpoint (Z.min remaining BULK_TRANSFER_SIZE)
                USB_TIMEOUT_MS (world s)) as [[data | e] w'] eqn:Hread.
    + rewrite (loop_body_data _ _ _ _ _ _ _ Hread) in Hrun.
      destruct (len data =? 0) eqn:Hlen.
      * inversion Hrun; subst. simpl.
        exists [chunk_request dev endpoint remaining].
        repeat split; auto. simpl. lia.
      * apply IH in Hrun; [| pose proof (len_nonneg data); lia].
        simpl in Hrun. destruct Hrun as (calls & Htrace & Hself & Hcalls & Hcount).
        exists (chunk_request dev endpoint remaining :: calls).
        split; [rewrite Htrace, <- app_assoc; reflexivity|].
        split; [exact Hself|]. split; [constructor; assumption | simpl; lia].
    + rewrite (loop_body_raise _ _ _ _ _ _ _ Hread) in Hrun.
      exists [chunk_request dev endpoint remaining].
      destruct (is_USBTimeoutError e && truthy_bytes buffer);
        inversion Hrun; subst; simpl; repeat split; auto; simpl; lia.
Qed.

(** X13. Whatever the transport answers, every transfer a chunked read
    requests is from the device of the session, on the endpoint of the call
    and with the timeout of the module, for at least one byte, at most
    [BULK_TRANSFER_SIZE] bytes and never more than [size] bytes; a read
    makes at most [size] requests, none at all on a session that is not
    open, and leaves the session object as it was, so that another read may
    follow. *)
Theorem read_requests_are_bounded (s : state W) (endpoint size : Z) r s' :
  read endpoint size s = (r, s') ->
  exists calls,
    trace s' = trace s ++ calls
    /\ self s' = self s
    /\ Z.of_nat (length calls) <= Z.max size 0
    /\ (_device (self s) = None -> calls = [])
    /\ (forall dev, _device (self s) = Some dev ->
        Forall (chunk_request_of dev endpoint size) calls).
Proof.
  intros Hread. unfold read, Py.bind, get_self in Hread.
  destruct (_device (self s)) as [dev|] eqn:Hdev.
  - apply (while_loop_requests dev endpoint size) in Hread; [| lia].
    destruct Hread as (calls & Htrace & Hself & Hcalls & Hcount).
    exists calls. repeat split; auto; try lia; try discriminate.
    intros dev' Hdev'. inversion Hdev'; subst. exact Hcalls.
  - inversion Hread; subst. exists []. rewrite app_nil_r.
    repeat split; auto; simpl; try lia; discriminate.
Qed.

(** The number of chunks a full read of [size] bytes takes. *)
Lemma chunks_step (remaining : Z) :
  remaining > BULK_TRANSFER_SIZE ->
  Z.to_nat ((remaining + BULK_TRANSFER_SIZE - 1) / BULK_TRANSFER_SIZE) =
  S (Z.to_nat ((remaining - BULK_TRANSFER_SIZE + BULK_TRANSFER_SIZE - 1)
               / BULK_TRANSFER_SIZE)).
Proof.
  unfold BULK_TRANSFER_SIZE. intros Hbig.
  replace (remaining + 1024 - 1) with ((remaining - 1024 + 1024 - 1) + 1 * 1024)
    by lia.
  rewrite Z.div_add by lia.
  assert (0 <= (remaining - 1024 + 1024 - 1) / 1024)
    by (apply Z.div_pos; lia).
  lia.
Qed.

Lemma chunks_last (remaining : Z) :
  0 < remaining <= BULK_TRANSFER_SIZE ->
  Z.to_nat ((remaining + BULK_TRANSFER_SIZE - 1) / BULK_TRANSFER_SIZE) = 1%nat.
Proof.
  unfold BULK_TRANSFER_SIZE. intros Hsmall.
  replace ((remaining + 1024 - 1) / 1024) with 1; [reflexivity|].
  apply Z.div_unique with (r := remaining - 1); lia.
Qed.

Lemma chunks_none (remaining : Z) :
  remaining <= 0 ->
  Z.to_nat ((remaining + BULK_TRANSFER_SIZE - 1) / BULK_TRANSFER_SIZE) = 0%nat.
Proof.
  unfold BULK_TRANSFER_SIZE. intros Hnone.
  assert ((remaining + 1024 - 1) / 1024 <= 0); [| lia].
  assert ((remaining + 1024 - 1) / 1024 < 1); [| lia].
  apply Z.div_lt_upper_bound; lia.
Qed.

(** On a transport with data always ready the loop runs to the end. *)
Lemma while_loop_ready (Hready : always_delivers) dev endpoint :
  forall n buffer remaining (s : state W) fuel,
    Z.to_nat ((remaining + BULK_TRANSFER_SIZE - 1) / BULK_TRANSFER_SIZE) = n ->
    (Z.to_nat remaining <= fuel)%nat ->
    exists data s',
      while_loop fuel dev endpoint buffer remaining s = (Ok (Some (buffer ++ data)), s')
      /\ len data = Z.max remaining 0
      /\ self s' = self s
      /\ trace s' = trace s ++ full_read_requests dev endpoint remaining.
Proof.
  induction n as [|n IH]; intros buffer remaining s fuel Hn Hfuel.
  - assert (remaining <= 0) as Hnone.
    { destruct (Z_lt_le_dec 0 remaining) as [Hpos|]; [| assumption].
      destruct (Z_lt_le_dec BULK_TRANSFER_SIZE remaining) as [Hbig|Hsmall].
      - rewrite chunks_step in Hn by lia. discriminate.
      - rewrite chunks_last in Hn by lia. discriminate. }
    exists [], s. rewrite (while_loop_nothing_wanted _ _ _ _ _ _ Hnone).
    rewrite app_nil_r. unfold full_read_requests. rewrite Hn. simpl.
    rewrite app_nil_r. repeat split; auto. unfold len. simpl. lia.
  - assert (0 < remaining) as Hpos.
    { destruct (Z_lt_le_dec 0 remaining) as [|Hnone]; [assumption|].
      rewrite chunks_none in Hn by assumption. discriminate. }
    destruct fuel as [|fuel]; [lia|].
    cbn [while_loop]. replace (remaining >? 0) with true
      by (symmetry; apply Z.gtb_lt; lia).
    destruct (Hready dev endpoint (Z.min remaining BULK_TRANSFER_SIZE)
                USB_TIMEOUT_MS (world s)) as (chunk & w' & Hread & Hlen).
    { unfold BULK_TRANSFER_SIZE. lia. }
    unfold Py.bind at 1. rewrite (loop_body_data _ _ _ _ _ _ _ Hread).
    replace (len chunk =? 0) with false
      by (symmetry; apply Z.eqb_neq; unfold BULK_TRANSFER_SIZE in Hlen; lia).
    destruct (IH (buffer ++ chunk) (remaining - len chunk)
                (after_request dev endpoint remaining s w') fuel)
      as (data & s' & Hrun & Hdata & Hself & Htrace).
    { destruct (Z_lt_le_dec BULK_TRANSFER_SIZE remaining) as [Hbig|Hsmall].
      - rewrite chunks_step in Hn by lia.
        replace (len chunk) with BULK_TRANSFER_SIZE by lia. lia.
      - replace (len chunk) with remaining by lia.
        rewrite chunks_last in Hn by lia.
        rewrite chunks_none by lia. lia. }
    { unfold BULK_TRANSFER_SIZE in Hlen. lia. }
    exists (chunk ++ data), s'. rewrite Hrun, app_assoc.
    split; [reflexivity|]. split; [rewrite len_app; lia|].
    split; [exact Hself|]. rewrite Htrace. unfold after_request. cbn [trace].
    rewrite <- app_assoc.
    f_equal. unfold full_read_requests at 2. rewrite Hn.
    change (seq 0 (S n)) with (0%nat :: seq 1 n).
    rewrite <- seq_shift. cbn [map app]. rewrite map_map.
    f_equal; [f_equal; lia|]. unfold full_read_requests.
    destruct (Z_lt_le_dec BULK_TRANSFER_SIZE remaining) as [Hbig|Hsmall].
    + rewrite chunks_step in Hn by lia. injection Hn as Hn.
      replace (len chunk) with BULK_TRANSFER_SIZE by lia. rewrite Hn.
      apply map_ext. intros k. f_equal. unfold BULK_TRANSFER_SIZE. lia.
    + rewrite chunks_last in Hn by lia. injection Hn as Hn. subst n.
      replace (len chunk) with remaining by lia.
      rewrite chunks_none by lia. reflexivity.
Qed.

(** The full read on a transport with data always ready. *)
Lemma read_returns_full (Hready : always_delivers)
    (s : state W) (endpoint size : Z) dev :
  _device (self s) = Some dev ->
  exists data s',
    read endpoint size s = (Ok (Some data), s')
    /\ len data = Z.max size 0
    /\ self s' = self s
    /\ trace s' = trace s ++ full_read_requests dev endpoint size.
Proof.
  intros Hdev. rewrite (read_open _ _ _ _ Hdev).
  destruct (while_loop_ready Hready dev endpoint _ [] size s (Z.to_nat size)
              eq_refl (le_n _))
    as (data & s' & Hrun & Hlen & Hself & Htrace).
  exists data, s'. simpl in Hrun. auto.
Qed.

(** X14. On a transport that always delivers the bytes it is asked for, a
    chunked read on an open session returns exactly [size] bytes (none for a
    size that is not positive).  It gets them in [size / 1024] requests,
    rounded up: each but the last for [BULK_TRANSFER_SIZE] bytes, the last
    for the bytes still wanted. *)
Theorem read_returns_size_bytes_when_data_is_ready (Hready : always_delivers)
    (s : state W) (endpoint size : Z) dev :
  _device (self s) = Some dev ->
  exists data s',
    read endpoint size s = (Ok (Some data), s')
    /\ len data = Z.max size 0
    /\ self s' = self s
    /\ trace s' = trace s ++ full_read_requests dev endpoint size
    /\ Z.of_nat (length (full_read_requests dev endpoint size)) =
         (Z.max size 0 + BULK_TRANSFER_SIZE - 1) / BULK_TRANSFER_SIZE.
Proof.
  intros Hdev.
  destruct (read_returns_full Hready s endpoint size dev Hdev)
    as (data & s' & Hrun & Hlen & Hself & Htrace).
  exists data, s'.
  split; [exact Hrun | split; [exact Hlen | split; [exact Hself|]]].
  split; [exact Htrace|].
  unfold full_read_requests. rewrite length_map, length_seq.
  destruct (Z_lt_le_dec 0 size) as [Hpos|Hnone].
  - rewrite Z.max_l by lia. rewrite Z2Nat.id; [reflexivity|].
    apply Z.div_pos; unfold BULK_TRANSFER_SIZE; lia.
  - rewrite chunks_none by assumption. rewrite Z.max_r by lia. reflexivity.
Qed.

End RequestFacts.

(** ** The capture loop over any device *)

Section CaptureAnyDevice.

Context {S : Type}.
Variable read_of_device : Z -> Z -> Py.t S (list byte).
Variable time_time : S -> Q * S.

(** One pass of the [for] loop, outcome by outcome. *)
Lemma for_blocks_pass endpoint num_loops block_size i rest total
    (env : capture_env S) :
  for_blocks read_of_device time_time endpoint num_loops block_size
    (i :: rest) total env =
  let (before, d0) := time_time (device env) in
  match read_of_device endpoint block_size d0 with
  | (Raise e, d1) =>
      if is_USBError e then
        (Ok total, {| device := d1; output_file := output_file env;
                      stdout := stdout env ++ [ReadFailed (i + 1) e] |})
      else
        (Raise e, {| device := d1; output_file := output_file env;
                     stdout := stdout env |})
  | (Ok data, d1) =>
      let (after, d2) := time_time d1 in
      if len data =? 0 then
        (Ok total, {| device := d2; output_file := output_file env;
                      stdout := stdout env ++ [NoDataReceived (i + 1)] |})
      else
        match transfer_rate (len data) (after - before) with
        | Raise e => (Raise e, {| device := d2;
                                  output_file := output_file env ++ data;
                                  stdout := stdout env |})
        | Ok rate =>
            match py_truediv (inject_Z ((i + 1) * 100)) (inject_Z num_loops) with
            | Raise e => (Raise e, {| device := d2;
                                      output_file := output_file env ++ data;
                                      stdout := stdout env |})
            | Ok progress =>
                for_blocks read_of_device time_time endpoint num_loops block_size
                  rest (total + len data)
                  {| device := d2; output_file := output_file env ++ data;
                     stdout := stdout env
                               ++ [Progress (i + 1) num_loops progress rate] |}
            end
        end
  end.
Proof.
  cbn [for_blocks].
  cbv [Py.bind Py.try_except now on_device print write lift_result Py.modify Py.ret].
  destruct (time_time (device env)) as [before d0].
  cbn [device output_file stdout].
  destruct (read_of_device endpoint block_size d0) as [[data | e] d1].
  - cbn [device output_file stdout].
    destruct (time_time d1) as [after d2]. cbn [device output_file stdout].
    destruct (len data =? 0); [reflexivity|].
    destruct (transfer_rate (len data) (after - before)); [| reflexivity].
    destruct (py_truediv (inject_Z ((i + 1) * 100)) (inject_Z num_loops));
      reflexivity.
  - destruct (is_USBError e); reflexivity.
Qed.

(** What the loop returns is what it has written: the file keeps what it
    held and grows by the bytes counted; an exception that leaves the loop is
    not a [usb.core.USBError]. *)
Lemma for_blocks_accounting endpoint num_loops block_size :
  forall indices total (env : capture_env S) r env',
    for_blocks read_of_device time_time endpoint num_loops block_size
      indices total env = (r, env') ->
    exists written,
      output_file env' = output_file env ++ written
      /\ match r with
         | Ok total_bytes => total_bytes = total + len written
         | Raise e => is_USBError e = false
         end.
Proof.
  induction indices as [|i rest IH]; intros total env r env' Hrun.
  - simpl in Hrun. inversion Hrun; subst. exists []. rewrite app_nil_r.
    split; [reflexivity | unfold len; simpl; lia].
  - rewrite for_blocks_pass in Hrun.
    destruct (time_time (device env)) as [before d0].
    destruct (read_of_device endpoint block_size d0) as [[data | e] d1].
    + destruct (time_time d1) as [after d2].
      destruct (len data =? 0).
      * inversion Hrun; subst. exists []. simpl. rewrite app_nil_r.
        split; [reflexivity | unfold len; simpl; lia].
      * destruct (transfer_rate_total (len data) (after - before)) as [rate Hrate].
        rewrite Hrate in Hrun.
        destruct (py_truediv (inject_Z ((i + 1) * 100)) (inject_Z num_loops))
          as [progress | e] eqn:Hprogress.
        -- apply IH in Hrun. simpl in Hrun. destruct Hrun as (written & Hfile & Hr).
           exists (data ++ written). rewrite Hfile, app_assoc.
           split; [reflexivity|].
           destruct r; [rewrite len_app; lia | exact Hr].
        -- inversion Hrun; subst. exists data. simpl.
           split; [reflexivity|]. unfold py_truediv in Hprogress.
           destruct (Qeq_bool (inject_Z num_loops) 0); inversion Hprogress.
           reflexivity.
    + destruct (is_USBError e) eqn:Hclass; inversion Hrun; subst; simpl.
      * exists []. rewrite app_nil_r. split; [reflexivity | unfold len; simpl; lia].
      * exists []. rewrite app_nil_r. split; [reflexivity | exact Hclass].
Qed.

(** X15. Whatever the device does, the number [capture_data] returns is the
    number of bytes it has appended to the output file, after what the file
    already held; and no [usb.core.USBError] leaves [capture_data]: an
    exception that does is of another class. *)
Theorem capture_data_counts_what_it_writes endpoint num_loops block_size
    (env : capture_env S) r env' :
  capture_data read_of_device time_time endpoint num_loops block_size env =
    (r, env') ->
  exists written,
    output_file env' = output_file env ++ written
    /\ match r with
       | Ok total_bytes => total_bytes = len written
       | Raise e => is_USBError e = false
       end.
Proof.
  intros Hrun. unfold capture_data in Hrun. unfold Py.bind at 1 in Hrun.
  destruct (for_blocks read_of_device time_time endpoint num_loops block_size
              (range num_loops) 0 env) as [[total | e] env1] eqn:Hloop.
  - apply for_blocks_accounting in Hloop. destruct Hloop as (written & Hfile & Htotal).
    cbv [Py.bind print Py.modify Py.ret] in Hrun. inversion Hrun; subst.
    exists written. simpl. split; [exact Hfile | lia].
  - apply for_blocks_accounting in Hloop. destruct Hloop as (written & Hfile & Hclass).
    inversion Hrun; subst. exists written. auto.
Qed.

End CaptureAnyDevice.

(** ** The capture loop over a session *)

Section CaptureSession.

Context {W : Type} `{Backend W}.

(** [time.time()]: reading the clock leaves the session and the USB
    subsystem alone. *)
Variable time_time : state W -> Q * state W.
Hypothesis clock_is_a_query : forall s, snd (time_time s) = s.

Lemma clock_reading (s : state W) : time_time s = (fst (time_time s), s).
Proof.
  pose proof (clock_is_a_query s) as Hsame.
  destruct (time_time s) as [t s']. simpl in *. subst. reflexivity.
Qed.

(** [device.read] on an open session: whether it returns or raises, it
    leaves the session object alone; and it returns no more than it is
    asked for when the transport honours sizes. *)
Lemma device_dot_read_open (Hsize : honours_size)
    (s : state W) dev endpoint size r s' :
  _device (self s) = Some dev ->
  device_dot_read endpoint size s = (r, s') ->
  self s' = self s
  /\ match r with
     | Ok data => len data <= Z.max size 0
     | Raise _ => True
     end.
Proof.
  intros Hdev Hrun. unfold device_dot_read in Hrun.
  rewrite (read_open _ _ _ _ Hdev) in Hrun.
  destruct (while_loop (Z.to_nat size) dev endpoint [] size s)
    as [[[data|] | e] s1] eqn:Hloop;
    destruct (while_loop_requests dev endpoint size _ _ _ _ _ _ (Z.le_refl _) Hloop)
      as (calls & _ & Hself & _);
    inversion Hrun; subst; (split; [exact Hself|]); try exact I.
  destruct (Z_lt_le_dec size 0) as [Hneg|Hnonneg].
  - rewrite while_loop_nothing_wanted in Hloop by lia.
    inversion Hloop; subst. unfold len. simpl. lia.
  - pose proof (while_loop_bound dev endpoint Hsize _ _ _ _ _ _ Hnonneg Hloop)
      as Hbound.
    change (len []) with 0 in Hbound. lia.
Qed.

Lemma for_blocks_on_open_session (Hsize : honours_size)
    dev endpoint num_loops block_size :
  forall indices total (env : capture_env (state W)) r env',
    _device (self (device env)) = Some dev ->
    for_blocks device_dot_read time_time endpoint num_loops block_size
      indices total env = (r, env') ->
    self (device env') = self (device env)
    /\ match r with
       | Ok total_bytes =>
           total <= total_bytes
           <= total + Z.of_nat (length indices) * Z.max block_size 0
       | Raise _ => True
       end.
Proof.
  induction indices as [|i rest IH]; intros total env r env' Hdev Hrun.
  - simpl in Hrun. inversion Hrun; subst. split; [reflexivity | simpl; lia].
  - change (length (i :: rest)) with (S (length rest)). rewrite Nat2Z.inj_succ.
    assert (0 <= Z.of_nat (length rest) * Z.max block_size 0) as Hroom by nia.
    rewrite for_blocks_pass in Hrun. rewrite (clock_reading (device env)) in Hrun.
    destruct (device_dot_read endpoint block_size (device env))
      as [[data | e] d1] eqn:Hread;
      destruct (device_dot_read_open Hsize _ _ _ _ _ _ Hdev Hread) as [Hself Hlen].
    + rewrite (clock_reading d1) in Hrun.
      destruct (len data =? 0) eqn:Hempty.
      * inversion Hrun; subst. cbn [device]. split; [exact Hself | nia].
      * destruct (transfer_rate_total (len data)
                    (fst (time_time d1) - fst (time_time (device env))))
          as [rate Hrate].
        rewrite Hrate in Hrun.
        destruct (py_truediv (inject_Z ((i + 1) * 100)) (inject_Z num_loops)).
        -- apply IH in Hrun; [| cbn [device]; rewrite Hself; exact Hdev].
           cbn [device] in Hrun. destruct Hrun as [Hself' Hbound].
           split; [rewrite Hself'; exact Hself|].
           destruct r; [| exact I]. pose proof (len_nonneg data). nia.
        -- inversion Hrun; subst. cbn [device]. split; [exact Hself | exact I].
    + destruct (is_USBError e); inversion Hrun; subst; cbn [device];
        (split; [exact Hself|]); [nia | exact I].
Qed.

(** X16. Capture over an open session stays within bounds.  When the
    transport delivers no more than it is asked for and reading the clock
    changes nothing, a [capture_data] that reads through
    [ChaosKeyDevice.read] and returns has a total between 0 and
    [num_loops * block_size], and exactly that many bytes were written to
    the output file; whether [capture_data] returns or raises, the session
    object is as it was. *)
Theorem capture_on_open_session_is_bounded (Hsize : honours_size)
    (env : capture_env (state W)) dev (endpoint num_loops block_size : Z)
    r env' :
  _device (self (device env)) = Some dev ->
  capture_data device_dot_read time_time endpoint num_loops block_size env =
    (r, env') ->
  self (device env') = self (device env)
  /\ match r with
     | Ok total_bytes =>
         0 <= total_bytes <= Z.max num_loops 0 * Z.max block_size 0
         /\ len (output_file env') = len (output_file env) + total_bytes
     | Raise _ => True
     end.
Proof.
  intros Hdev Hrun. unfold capture_data in Hrun. unfold Py.bind at 1 in Hrun.
  destruct (for_blocks device_dot_read time_time endpoint num_loops block_size
              (range num_loops) 0 env) as [[total | e] env1] eqn:Hloop.
  - destruct (for_blocks_on_open_session Hsize dev endpoint num_loops block_size
                _ _ _ _ _ Hdev Hloop) as [Hself Hbound].
    destruct (for_blocks_accounting _ _ _ _ _ _ _ _ _ _ Hloop)
      as (written & Hfile & Htotal).
    cbv [Py.bind print Py.modify Py.ret] in Hrun. inversion Hrun; subst.
    cbn [device output_file]. split; [exact Hself|].
    unfold range in Hbound. rewrite length_map, length_seq in Hbound.
    split; [| rewrite Hfile, len_app; lia].
    assert (Z.of_nat (Z.to_nat num_loops) = Z.max num_loops 0) as Hcount by lia.
    rewrite Hcount in Hbound. lia.
  - destruct (for_blocks_on_open_session Hsize dev endpoint num_loops block_size
                _ _ _ _ _ Hdev Hloop) as [Hself _].
    inversion Hrun; subst. split; [exact Hself | exact I].
Qed.

(** The blocks of a capture on a transport with data always ready. *)
Lemma for_blocks_when_data_is_ready (Hready : always_delivers)
    dev endpoint num_loops block_size :
  num_loops <> 0 -> 0 < block_size ->
  forall indices total (env : capture_env (state W)),
    _device (self (device env)) = Some dev ->
    exists env',
      for_blocks device_dot_read time_time endpoint num_loops block_size
        indices total env =
        (Ok (total + Z.of_nat (length indices) * block_size), env')
      /\ len (output_file env') =
           len (output_file env) + Z.of_nat (length indices) * block_size
      /\ length (stdout env') = (length (stdout env) + length indices)%nat
      /\ self (device env') = self (device env)
      /\ trace (device env') =
           trace (device env)
           ++ concat (repeat (full_read_requests dev endpoint block_size)
                        (length indices)).
Proof.
  intros Hloops Hblock.
  induction indices as [|i rest IH]; intros total env Hdev.
  - exists env. simpl. unfold Py.ret. rewrite app_nil_r, !Z.add_0_r.
    repeat split; auto.
  - change (length (i :: rest)) with (S (length rest)). rewrite Nat2Z.inj_succ.
    rewrite for_blocks_pass. rewrite (clock_reading (device env)).
    destruct (read_returns_full Hready (device env) endpoint block_size dev Hdev)
      as (data & d1 & Hread & Hlen & Hself & Htrace).
    unfold device_dot_read at 1. rewrite Hread. rewrite (clock_reading d1).
    rewrite Z.max_l in Hlen by lia.
    replace (len data =? 0) with false by (symmetry; apply Z.eqb_neq; lia).
    destruct (transfer_rate_total (len data)
                (fst (time_time d1) - fst (time_time (device env))))
      as [rate Hrate].
    rewrite Hrate, (py_truediv_by_count _ _ Hloops).
    match goal with
    | |- context [for_blocks _ _ _ _ _ rest ?t ?e] =>
        destruct (IH t e) as (env' & Hrun & Hfile & Hout & Hself' & Htrace')
    end.
    { cbn [device]. rewrite Hself. exact Hdev. }
    exists env'. cbn [device output_file stdout] in Hfile, Hout, Hself', Htrace'.
    rewrite Hrun, Hfile, Hout, Hself', Htrace', Hself, Htrace, len_app, Hlen.
    rewrite length_app, <- app_assoc. cbn [repeat concat length].
    split; [do 2 f_equal; lia|]. repeat split; auto; lia.
Qed.

(** With the output file and the standard output of [capture_env], which
    take whatever is written to them, such a capture runs to the end. *)
Lemma capture_data_when_data_is_ready (Hready : always_delivers)
    (env : capture_env (state W)) dev (endpoint num_loops block_size : Z) :
  _device (self (device env)) = Some dev ->
  0 < block_size ->
  exists env',
    capture_data device_dot_read time_time endpoint num_loops block_size env =
      (Ok (Z.max num_loops 0 * block_size), env')
    /\ len (output_file env') =
         len (output_file env) + Z.max num_loops 0 * block_size
    /\ length (stdout env') =
         (length (stdout env) + Z.to_nat num_loops + 1)%nat
    /\ trace (device env') =
         trace (device env)
         ++ concat (repeat (full_read_requests dev endpoint block_size)
                      (Z.to_nat num_loops)).
Proof.
  intros Hdev Hblock. unfold capture_data. unfold Py.bind at 1.
  destruct (Z_le_gt_dec num_loops 0) as [Hnone|Hsome].
  - unfold range. replace (Z.to_nat num_loops) with 0%nat by lia. simpl.
    cbv [Py.bind print Py.modify Py.ret]. eexists.
    rewrite Z.max_r by lia. split; [reflexivity|]. simpl.
    rewrite app_nil_r, length_app. simpl. repeat split; lia.
  - destruct (for_blocks_when_data_is_ready Hready dev endpoint num_loops
                block_size ltac:(lia) Hblock (range num_loops) 0 env Hdev)
      as (env1 & Hrun & Hfile & Hout & _ & Htrace).
    rewrite Hrun. cbv [Py.bind print Py.modify Py.ret]. eexists.
    unfold range in *. rewrite length_map, length_seq in *.
    rewrite Z.max_l by lia. rewrite Z2Nat.id in * by lia.
    split; [reflexivity|]. simpl. rewrite length_app. simpl.
    repeat split; auto; lia.
Qed.

(** X17. Capture from a transport with data always ready never stops
    short.  With an open session, a positive block size and a clock whose
    reading changes nothing, a [capture_data] that reads through
    [ChaosKeyDevice.read] and returns has completed every block: its total is
    [num_loops * block_size] (0 when [num_loops] is not positive), as many
    bytes were written to the output file, one output per block and the
    final newline were printed, and the transfers requested are those of
    [num_loops] full reads, one after the other. *)
Theorem capture_returns_every_block_when_data_is_ready (Hready : always_delivers)
    (env : capture_env (state W)) dev (endpoint num_loops block_size : Z)
    total_bytes env' :
  _device (self (device env)) = Some dev ->
  0 < block_size ->
  capture_data device_dot_read time_time endpoint num_loops block_size env =
    (Ok total_bytes, env') ->
  total_bytes = Z.max num_loops 0 * block_size
  /\ len (output_file env') =
       len (output_file env) + Z.max num_loops 0 * block_size
  /\ length (stdout env') =
       (length (stdout env) + Z.to_nat num_loops + 1)%nat
  /\ trace (device env') =
       trace (device env)
       ++ concat (repeat (full_read_requests dev endpoint block_size)
                    (Z.to_nat num_loops)).
Proof.
  intros Hdev Hblock Hrun.
  destruct (capture_data_when_data_is_ready Hready env dev endpoint num_loops
              block_size Hdev Hblock) as (env1 & Hfull & Hrest).
  rewrite Hfull in Hrun. inversion Hrun; subst. split; [reflexivity | exact Hrest].
Qed.

(** X18. Capture from a session that is not open stops at the first block
    with [RuntimeError]: the [except usb.core.USBError] of the loop does not
    catch it, nothing is written or printed, not even the final newline, and
    no transfer is requested. *)
Theorem capture_on_unopened_session_raises
    (env : capture_env (state W)) (endpoint num_loops block_size : Z) :
  _device (self (device env)) = None ->
  0 < num_loops ->
  capture_data device_dot_read time_time endpoint num_loops block_size env =
    (Raise (RuntimeError "Device not open"), env).
Proof.
  intros Hdev Hloops. unfold capture_data. unfold Py.bind at 1.
  destruct (range_split 0 num_loops Hloops) as [more Hrange].
  simpl in Hrange. rewrite Hrange, for_blocks_pass.
  rewrite (clock_reading (device env)).
  unfold device_dot_read, read, Py.bind, get_self. rewrite Hdev.
  unfold Py.raise. simpl. destruct env; reflexivity.
Qed.

End CaptureSession.

(** ** The properties above, on the test doubles *)

Lemma hub_always_delivers : @always_delivers hub hub_backend.
Proof.
  intros dev endpoint n timeout w Hpos. eexists; eexists.
  split; [reflexivity|]. unfold len. rewrite repeat_length. lia.
Qed.

Lemma hub_honours_size : @honours_size hub hub_backend.
Proof.
  intros dev endpoint size timeout w data w' Hpos Hread.
  inversion Hread; subst. unfold len. rewrite repeat_length. lia.
Qed.

Lemma hub_time_is_a_query (s : state hub) : snd (hub_time s) = s.
Proof. reflexivity. Qed.

Lemma with_session_always_closes_witness :
  exists w3,
    with_session (read ENDPOINT_COOKED 5) (fresh None failing_host) =
      (Raise (USBError (Some 32) "Pipe error"),
       {| self := set_device (Some key_a) (__init__ None); world := w3;
          trace := [CIsKernelDriverActive key_a 0; CClaimInterface key_a 0;
                    CRead key_a ENDPOINT_COOKED 5 USB_TIMEOUT_MS;
                    CRead key_a ENDPOINT_COOKED 2 USB_TIMEOUT_MS]
                   ++ cleanup_calls (set_device (Some key_a) (__init__ None)) |}).
Proof.
  refine (with_session_always_closes sim_cleanup_fails_with_USBError
            (read ENDPOINT_COOKED 5) (fresh None failing_host)
            {| self := set_device (Some key_a) (__init__ None);
               world := failing_host;
               trace := [CIsKernelDriverActive key_a 0; CClaimInterface key_a 0] |}
            {| self := set_device (Some key_a) (__init__ None);
               world := silent_host;
               trace := [CIsKernelDriverActive key_a 0; CClaimInterface key_a 0;
                         CRead key_a ENDPOINT_COOKED 5 USB_TIMEOUT_MS;
                         CRead key_a ENDPOINT_COOKED 2 USB_TIMEOUT_MS] |}
            (Raise (USBError (Some 32) "Pipe error")) _ _); reflexivity.
Defined.

Lemma enter_opens_a_chaoskey_witness :
  exists dev reads queries,
    In dev (candidates bench)
    /\ idVendor dev = CHAOSKEY_VID /\ idProduct dev = CHAOSKEY_PID
    /\ _device (self opened_on_bench) = Some dev
    /\ _serial (self opened_on_bench) = Some "B2"%string
    /\ _interface (self opened_on_bench) = 0
    /\ trace opened_on_bench = reads ++ queries ++ [CClaimInterface dev 0]
    /\ Forall (fun c => exists d, In d (candidates bench) /\ c = get_string_call d)
         reads
    /\ (truthy_str (Some "B2"%string) = false -> reads = [])
    /\ (queries = [CIsKernelDriverActive dev 0]
        \/ queries = [CIsKernelDriverActive dev 0; CDetachKernelDriver dev 0])
    /\ (_kernel_was_active (self opened_on_bench) = true ->
        existsb is_detach queries = true).
Proof.
  refine (enter_opens_a_chaoskey (Some "B2"%string) bench opened_on_bench _).
  reflexivity.
Defined.

Lemma enter_tolerates_missing_detach_support_witness :
  __enter__ (fresh None {| driverless_claimed := false |}) =
    (Ok tt, {| self := set_device (Some key_a) (__init__ None);
               world := {| driverless_claimed := true |};
               trace := [CIsKernelDriverActive key_a 0; CClaimInterface key_a 0] |}).
Proof.
  assert (find_device (fresh None {| driverless_claimed := false |}) =
          (Ok tt, {| self := set_device (Some key_a) (__init__ None);
                     world := {| driverless_claimed := false |};
                     trace := [] |})) as Hfind by reflexivity.
  destruct (enter_tolerates_missing_detach_support
              (fresh None {| driverless_claimed := false |})
              {| self := set_device (Some key_a) (__init__ None);
                 world := {| driverless_claimed := false |}; trace := [] |}
              key_a NotImplementedError {| driverless_claimed := false |}
              Hfind eq_refl) as [Htolerated _].
  destruct (Htolerated eq_refl) as [Hquery _].
  exact (Hquery eq_refl).
Defined.

Lemma read_requests_are_bounded_witness :
  exists calls,
    [CRead key_a ENDPOINT_COOKED 5 USB_TIMEOUT_MS;
     CRead key_a ENDPOINT_COOKED 2 USB_TIMEOUT_MS] =
      trace (opened stalling_host) ++ calls
    /\ open_on_key_a = self (opened stalling_host)
    /\ Z.of_nat (length calls) <= Z.max 5 0
    /\ (_device (self (opened stalling_host)) = None -> calls = [])
    /\ (forall dev, _device (self (opened stalling_host)) = Some dev ->
        Forall (chunk_request_of dev ENDPOINT_COOKED 5) calls).
Proof.
  refine (read_requests_are_bounded (opened stalling_host) ENDPOINT_COOKED 5
            (Ok (Some [x01; x02; x03]))
            {| self := open_on_key_a; world := silent_host;
               trace := [CRead key_a ENDPOINT_COOKED 5 USB_TIMEOUT_MS;
                         CRead key_a ENDPOINT_COOKED 2 USB_TIMEOUT_MS] |} _).
  reflexivity.
Defined.

Lemma read_returns_size_bytes_when_data_is_ready_witness :
  exists data s',
    read ENDPOINT_COOKED 2500 opened_on_bench = (Ok (Some data), s')
    /\ len data = Z.max 2500 0
    /\ self s' = self opened_on_bench
    /\ trace s' = trace opened_on_bench
                  ++ full_read_requests key_b ENDPOINT_COOKED 2500
    /\ Z.of_nat (length (full_read_requests key_b ENDPOINT_COOKED 2500)) =
         (Z.max 2500 0 + BULK_TRANSFER_SIZE - 1) / BULK_TRANSFER_SIZE.
Proof.
  refine (read_returns_size_bytes_when_data_is_ready hub_always_delivers
            opened_on_bench ENDPOINT_COOKED 2500 key_b _).
  reflexivity.
Defined.

Lemma capture_data_counts_what_it_writes_witness :
  let env := script_env {| responses := [Ok [x01; x02]; Ok [x03];
                                         Raise (USBError (Some 32) "Pipe error")];
                           clock := seconds; ticks := 0; asked := [] |} in
  let run := capture_data script_read script_time ENDPOINT_COOKED 5 2 env in
  exists written,
    output_file (snd run) = output_file env ++ written
    /\ match fst run with
       | Ok total_bytes => total_bytes = len written
       | Raise e => is_USBError e = false
       end.
Proof.
  intros env run.
  refine (capture_data_counts_what_it_writes script_read script_time
            ENDPOINT_COOKED 5 2 env (fst run) (snd run) _).
  vm_compute. reflexivity.
Defined.

Lemma capture_on_open_session_is_bounded_witness :
  let env := {| device := opened_on_bench; output_file := []; stdout := [] |} in
  let run := capture_data device_dot_read hub_time ENDPOINT_COOKED 3 2500 env in
  self (device (snd run)) = self (device env)
  /\ match fst run with
     | Ok total_bytes =>
         0 <= total_bytes <= Z.max 3 0 * Z.max 2500 0
         /\ len (output_file (snd run)) = len (output_file env) + total_bytes
     | Raise _ => True
     end.
Proof.
  intros env run.
  refine (capture_on_open_session_is_bounded hub_time hub_time_is_a_query
            hub_honours_size env key_b ENDPOINT_COOKED 3 2500
            (fst run) (snd run) _ _).
  - reflexivity.
  - vm_compute. reflexivity.
Defined.

Lemma capture_returns_every_block_when_data_is_ready_witness :
  let env := {| device := opened_on_bench; output_file := []; stdout := [] |} in
  let run := capture_data device_dot_read hub_time ENDPOINT_COOKED 3 2500 env in
  7500 = Z.max 3 0 * 2500
  /\ len (output_file (snd run)) = len (output_file env) + Z.max 3 0 * 2500
  /\ length (stdout (snd run)) = (length (stdout env) + Z.to_nat 3 + 1)%nat
  /\ trace (device (snd run)) =
       trace (device env)
       ++ concat (repeat (full_read_requests key_b ENDPOINT_COOKED 2500)
                    (Z.to_nat 3)).
Proof.
  intros env run.
  refine (capture_returns_every_block_when_data_is_ready hub_time
            hub_time_is_a_query hub_always_delivers env key_b ENDPOINT_COOKED
            3 2500 7500 (snd run) _ _ _).
  - reflexivity.
  - lia.
  - vm_compute. reflexivity.
Defined.

Lemma capture_on_unopened_session_raises_witness :
  let env := {| device := fresh None bench; output_file := []; stdout := [] |} in
  capture_data device_dot_read hub_time ENDPOINT_COOKED 3 2500 env =
    (Raise (RuntimeError "Device not open"), env).
Proof.
  intros env.
  refine (capture_on_unopened_session_raises hub_time hub_time_is_a_query
            env ENDPOINT_COOKED 3 2500 _ _).
  - reflexivity.
  - lia.
Defined.
